(** * Verification of the site generator [src/site/generate.py]

    The script reads two HTML templates that live next to it, substitutes
    placeholder tokens ([@TABLE@], [@BUILD@], [@DATE@], [@FILENAME-<folder>@])
    by literal substring replacement, and writes the two pages into a freshly
    created [out] directory.

    Modelling conventions.
    - A Python [str] is a [list ascii] (called [text]); file names are
      [string]s.  A character outside ASCII stands as the bytes of its UTF-8
      encoding, on which the replacement of an ASCII pattern does the same as
      on code points.  File contents are the decoded text that [f.read()]
      returns and [f.write()] accepts; encodings and newline translation of
      the text layer are outside the model, and so are permissions.
    - ["...".format(a, b)] with positional fields is the concatenation of the
      literal pieces with the arguments, written out piece by piece.
    - The file system seen by the script is the directory [DIR] holding the
      script: a finite map from entry names to nodes.  I/O runs in a state and
      error monad over a [world]; every primitive records an event, so that the
      order of the steps can be stated. *)

From Stdlib Require Import Ascii String List Arith Lia Bool.
From stdpp Require Import base option list gmap sets strings.

Import ListNotations.
Local Open Scope list_scope.

(** ** Text *)

Abbreviation text := (list ascii).

Definition txt (s : string) : text := list_ascii_of_string s.

Definition nl : text := ["010"%char].
Definition dquote : text := ["034"%char].
Definition spaces (n : nat) : text := repeat " "%char n.

(** ** The string methods the script relies on *)

Module Str.

(** [s.startswith(p)] *)
Fixpoint startswith (p s : text) : bool :=
  match p, s with
  | [], _ => true
  | _ :: _, [] => false
  | a :: p', b :: s' => if Ascii.eqb a b then startswith p' s' else false
  end.

(** The scan of [str.replace] for a non-empty pattern: left to right, at each
    position either the pattern matches, [new] is emitted and the scan resumes
    right after the match ([skip] counts the characters of the match still to
    be passed over), or the character is copied. *)
Fixpoint replace_from (old new : text) (skip : nat) (s : text) : text :=
  match s with
  | [] => []
  | c :: s' =>
      match skip with
      | S k => replace_from old new k s'
      | O =>
          if startswith old s
          then new ++ replace_from old new (length old - 1) s'
          else c :: replace_from old new 0 s'
      end
  end.

(** [s.replace(old, new)]: all non-overlapping occurrences, leftmost first.
    For the empty pattern Python inserts [new] before every character and at
    the end. *)
Definition replace (s old new : text) : text :=
  match old with
  | [] => new ++ flat_map (fun c => c :: new) s
  | _ :: _ => replace_from old new 0 s
  end.

(** [sep.join(parts)] *)
Fixpoint join (sep : text) (parts : list text) : text :=
  match parts with
  | [] => []
  | [p] => p
  | p :: rest => p ++ sep ++ join sep rest
  end.

(** [needle in s], as a boolean *)
Fixpoint contains (needle s : text) : bool :=
  startswith needle s ||
  match s with
  | [] => false
  | _ :: s' => contains needle s'
  end.

End Str.

(** ** Constants of the script *)

Definition SPAN_BUILD : text := txt "0.11.0.4882".
Definition SPAN_DATE : text := txt "May 17, 2019".

Definition JBR_BUILD : text := txt "1.0.beta.4882".
Definition JBR_DATE : text := txt "May 17, 2019".

(** [OUT_FOLDER = os.path.join(DIR, 'out')]: the entry [out] of [DIR]. *)
Definition OUT_FOLDER : string := "out".

Record DistrDescriptor := {
  title : text;
  suffix : text;
  folder : text
}.

Definition TABLE : text := txt "@TABLE@".
Definition BUILD : text := txt "@BUILD@".
Definition DATE : text := txt "@DATE@".

(** ** The JBR page *)

Module Jbr.

Definition template : string := "jetbrains_research_jbr.html".

Definition code_base : text :=
  txt "https://download.jetbrains.com/biolabs/jbr_browser".

(** [fname = "jbr-{}{}".format(build, dd.suffix)] *)
Definition tr_fname (dd : DistrDescriptor) (build : text) : text :=
  txt "jbr-" ++ build ++ suffix dd.

(** [url = "{}/{}/{}".format(code_base, dd.folder, fname)] *)
Definition tr_url (dd : DistrDescriptor) (build : text) : text :=
  code_base ++ txt "/" ++ folder dd ++ txt "/" ++ tr_fname dd build.

(** The triple-quoted row template, formatted with [(url, fname, dd.title)]. *)
Definition create_tr (dd : DistrDescriptor) (build : text) : text :=
  let fname := tr_fname dd build in
  let url := tr_url dd build in
  nl ++ spaces 8 ++ txt "<tr>" ++
  nl ++ spaces 12 ++ txt "<td> <a href=" ++ dquote ++ url ++ dquote ++
        txt ">" ++ fname ++ txt "</a></td>" ++
  nl ++ spaces 12 ++ txt "<td>" ++ title dd ++ txt "</td>" ++
  nl ++ spaces 8 ++ txt "</tr>" ++
  nl ++ spaces 8.

Definition win64 : DistrDescriptor :=
  {| title := txt "Windows 64-bit ZIP archive (includes bundled 64-bit Java Runtime)";
     suffix := txt "_x64.zip"; folder := txt "win" |}.
Definition win32 : DistrDescriptor :=
  {| title := txt "Windows 32-bit ZIP archive (includes bundled 32-bit Java Runtime)";
     suffix := txt "_x86.zip"; folder := txt "win" |}.
Definition mac : DistrDescriptor :=
  {| title := txt "Mac installer (includes bundled 64-bit Java Runtime)";
     suffix := txt ".dmg"; folder := txt "mac" |}.
Definition linux : DistrDescriptor :=
  {| title := txt "Linux archive (includes bundled 64-bit Java Runtime)";
     suffix := txt ".tar.gz"; folder := txt "linux" |}.

Definition descrs : list DistrDescriptor := [win64; win32; mac; linux].

(** [[create_tr(d, build) for d in descrs]] *)
Definition rows (ds : list DistrDescriptor) (build : text) : list text :=
  map (fun d => create_tr d build) ds.

(** ['\n'.join([create_tr(d, JBR_BUILD) for d in descrs])] *)
Definition table (ds : list DistrDescriptor) (build : text) : text :=
  Str.join nl (rows ds build).

(** The chained replacement of [@TABLE@], [@BUILD@] and [@DATE@]. *)
Definition substitute_fixed
    (ds : list DistrDescriptor) (build date template_html : text) : text :=
  Str.replace
    (Str.replace
       (Str.replace template_html TABLE (table ds build))
       BUILD build)
    DATE date.

(** [fname = '@FILENAME-{}@'.format(dd.folder)] *)
Definition filename_key (dd : DistrDescriptor) : text :=
  txt "@FILENAME-" ++ folder dd ++ txt "@".

(** One iteration of the loop over [descrs]; the state is the pair of
    [seen_file_names] and [content]. *)
Definition filename_step (build : text)
    (st : gset text * text) (dd : DistrDescriptor) : gset text * text :=
  let '(seen_file_names, content) := st in
  let fname := filename_key dd in
  if decide (fname ∉ seen_file_names)
  then ({[ fname ]} ∪ seen_file_names,
        Str.replace content fname (build ++ suffix dd))
  else (seen_file_names, content).

Definition filename_loop (ds : list DistrDescriptor) (build content : text)
    : gset text * text :=
  fold_left (filename_step build) ds (∅, content).

(** The text handed to [f.write], as a function of the template text. *)
Definition render (ds : list DistrDescriptor) (build date template_html : text)
    : text :=
  snd (filename_loop ds build (substitute_fixed ds build date template_html)).

Definition content (template_html : text) : text :=
  render descrs JBR_BUILD JBR_DATE template_html.

End Jbr.

(** ** The SPAN page *)

Module Span.

Definition template : string := "jetbrains_research_span.html".

(** The row template uses the field [{0}] twice; its argument is
    ["span-{0}.jar".format(build)]. *)
Definition create_tr (build : text) : text :=
  let arg := txt "span-" ++ build ++ txt ".jar" in
  nl ++ spaces 8 ++ txt "<tr>" ++
  nl ++ spaces 12 ++ txt "<td> <a href=" ++ dquote ++
        txt "https://download.jetbrains.com/biolabs/span/" ++ arg ++ dquote ++
        txt ">" ++ arg ++ txt "</a></td>" ++
  nl ++ spaces 12 ++ txt "<td> Multi-platform JAR package </td>" ++
  nl ++ spaces 8 ++ txt "</tr>" ++
  nl ++ spaces 8.

Definition render (build date template_html : text) : text :=
  Str.replace
    (Str.replace
       (Str.replace template_html TABLE (create_tr build))
       BUILD build)
    DATE date.

Definition content (template_html : text) : text :=
  render SPAN_BUILD SPAN_DATE template_html.

End Span.

(** * The file system and the entry point *)

(** An entry of a directory: a regular file with its text, or a directory. *)
#[local] Set Warnings "-register-all".
Inductive node :=
  | File (content : text)
  | Folder (entries : gmap string node).

Inductive exn :=
  | FileNotFoundError
  | NotADirectoryError
  | IsADirectoryError
  | FileExistsError.

(** What the script does to its environment, in the order it does it.  A path
    [DIR/name] is given by [name]; a path [DIR/dir/name] by [dir] and [name]. *)
Inductive event :=
  | EvExists (name : string)
  | EvRmtree (name : string)
  | EvMkdir (name : string)
  | EvRead (name : string)
  | EvOpenWrite (dir name : string)
  | EvWrite (dir name : string)
  | EvPrint (line : string).

Record world := World {
  files : gmap string node;   (* the entries of [DIR] *)
  trace : list event          (* oldest first *)
}.

Inductive outcome (A : Type) :=
  | Returned (a : A)
  | Raised (e : exn).
Arguments Returned {A} a.
Arguments Raised {A} e.

Definition io (A : Type) : Type := world -> outcome A * world.

Definition ret {A} (a : A) : io A := fun w => (Returned a, w).
Definition raise {A} (e : exn) : io A := fun w => (Raised e, w).
Definition bind {A B} (m : io A) (k : A -> io B) : io B :=
  fun w =>
    match m w with
    | (Returned a, w') => k a w'
    | (Raised e, w') => (Raised e, w')
    end.

Notation "x <- m ;; k" := (bind m (fun x => k))
  (at level 100, m at next level, right associativity).
Notation "m ;; k" := (bind m (fun _ => k))
  (at level 100, right associativity).

Definition log (e : event) : io unit :=
  fun w => (Returned tt, World (files w) (trace w ++ [e])).
Definition get_files : io (gmap string node) := fun w => (Returned (files w), w).
Definition put_files (fs : gmap string node) : io unit :=
  fun w => (Returned tt, World fs (trace w)).

(** [os.path.exists(os.path.join(DIR, name))] *)
Definition os_path_exists (name : string) : io bool :=
  log (EvExists name) ;;
  fs <- get_files ;;
  ret (bool_decide (is_Some (fs !! name))).

(** [shutil.rmtree(os.path.join(DIR, name))] *)
Definition shutil_rmtree (name : string) : io unit :=
  log (EvRmtree name) ;;
  fs <- get_files ;;
  match fs !! name with
  | Some (Folder _) => put_files (delete name fs)
  | Some (File _) => raise NotADirectoryError
  | None => raise FileNotFoundError
  end.

(** [os.mkdir(os.path.join(DIR, name))] *)
Definition os_mkdir (name : string) : io unit :=
  log (EvMkdir name) ;;
  fs <- get_files ;;
  match fs !! name with
  | Some _ => raise FileExistsError
  | None => put_files (<[name := Folder ∅]> fs)
  end.

(** [with open(os.path.join(DIR, name), 'r') as f: f.read()] *)
Definition read_text (name : string) : io text :=
  log (EvRead name) ;;
  fs <- get_files ;;
  match fs !! name with
  | Some (File content) => ret content
  | Some (Folder _) => raise IsADirectoryError
  | None => raise FileNotFoundError
  end.

(** [open(os.path.join(DIR, dir, name), 'w')]: the file is created, or
    truncated when it exists. *)
Definition open_write (dir name : string) : io unit :=
  log (EvOpenWrite dir name) ;;
  fs <- get_files ;;
  match fs !! dir with
  | Some (Folder entries) =>
      match entries !! name with
      | Some (Folder _) => raise IsADirectoryError
      | _ => put_files (<[dir := Folder (<[name := File []]> entries)]> fs)
      end
  | Some (File _) => raise NotADirectoryError
  | None => raise FileNotFoundError
  end.

(** [f.write(content)] on the file opened by [open_write], followed by the
    close at the end of the [with] block. *)
Definition write_text (dir name : string) (content : text) : io unit :=
  log (EvWrite dir name) ;;
  fs <- get_files ;;
  match fs !! dir with
  | Some (Folder entries) =>
      put_files (<[dir := Folder (<[name := File content]> entries)]> fs)
  | _ => raise FileNotFoundError
  end.

(** [print(line)] *)
Definition print (line : string) : io unit := log (EvPrint line).

(** The lines on standard output. *)
Definition stdout (w : world) : list string :=
  omap (fun e => match e with EvPrint l => Some l | _ => None end) (trace w).

Definition generate_jbr_data : io unit :=
  template_html <- read_text Jbr.template ;;
  open_write OUT_FOLDER Jbr.template ;;
  write_text OUT_FOLDER Jbr.template (Jbr.content template_html).

Definition generate_span_data : io unit :=
  template_html <- read_text Span.template ;;
  open_write OUT_FOLDER Span.template ;;
  write_text OUT_FOLDER Span.template (Span.content template_html).

(** The first three lines of [_cli]. *)
Definition prepare_out_folder : io unit :=
  e <- os_path_exists OUT_FOLDER ;;
  (if e then shutil_rmtree OUT_FOLDER else ret tt) ;;
  os_mkdir OUT_FOLDER.

Definition _cli : io unit :=
  prepare_out_folder ;;
  print "Creating JetBrains Research JBR page" ;;
  generate_jbr_data ;;
  print "Creating JetBrains Research SPAN page" ;;
  generate_span_data ;;
  print "Done".

(** * Notions used in the statements *)

(** ** Chains of substitutions *)

(** [content.replace(k1, v1).replace(k2, v2)...] for a list of pairs. *)
Definition apply_substitutions (substs : list (text * text)) (content : text)
    : text :=
  fold_left (fun c kv => Str.replace c (fst kv) (snd kv)) substs content.

(** What a replace-all pass does to a text: [scanned old s gaps] cuts [s] at
    the occurrences of [old] that a left-to-right scan finds, one after the
    other and without overlap.  Before each of them lies a gap in which no
    earlier occurrence starts; after the last lies a gap without any.  The
    pass puts its value where the cuts are. *)
Inductive scanned (old : text) : text -> list text -> Prop :=
  | scanned_last (gap : text) :
      Str.contains old gap = false ->
      scanned old gap [gap]
  | scanned_cut (gap s : text) (gaps : list text) :
      Str.contains old (gap ++ take (length old - 1) old) = false ->
      scanned old s gaps ->
      scanned old (gap ++ old ++ s) (gap :: gaps).

(** A text put through replace-all passes, in the order of the list. *)
Inductive substituted : list (text * text) -> text -> text -> Prop :=
  | substituted_nil (t : text) : substituted [] t t
  | substituted_pass (old new : text) (rest : list (text * text))
      (t : text) (gaps : list text) (out : text) :
      scanned old t gaps ->
      substituted rest (Str.join new gaps) out ->
      substituted ((old, new) :: rest) t out.

(** ** Placeholders

    A placeholder is a text [c :: w ++ [c]] whose body [w] is free of the
    delimiter [c]; the script uses [@].  [inert c q new] checks that
    inserting [new] cannot create an occurrence of the placeholder [q]: [new]
    is free of the delimiter and has a character foreign to [q]. *)

Definition at_sign : ascii := "@"%char.

Definition hole (name : text) : text := at_sign :: name ++ [at_sign].

Definition free_of (c : ascii) (s : text) : bool :=
  forallb (fun x => negb (Ascii.eqb c x)) s.

Definition placeholder_body (c : ascii) (q : text) : option text :=
  match q with
  | [] => None
  | a :: rest =>
      match reverse rest with
      | [] => None
      | b :: rw =>
          if Ascii.eqb a c && Ascii.eqb b c && bool_decide (c ∉ rw)
          then Some (reverse rw) else None
      end
  end.

Definition inert (c : ascii) (q new : text) : bool :=
  match placeholder_body c q with
  | None => false
  | Some _ =>
      bool_decide (c ∉ new) && existsb (fun y => bool_decide (y ∉ q)) new
  end.

(** [keeps q substs]: no substitution of the list can create an occurrence of
    the placeholder [q]. *)
Definition keeps (q : text) (substs : list (text * text)) : bool :=
  forallb (fun kv => match fst kv with
                     | [] => false
                     | _ :: _ => inert at_sign q (snd kv)
                     end) substs.

(** A build identifier or release date that cannot be mistaken for a piece
    of a placeholder: it is free of [@] and has a character that occurs in
    none of [@TABLE@], [@BUILD@], [@DATE@]. *)
Definition safe_constant (v : text) : Prop :=
  (at_sign ∉ v) /\ exists y, y ∈ v /\ (y ∉ TABLE ++ BUILD ++ DATE).

(** ** The filename placeholders: first descriptor per folder wins *)

(** The selection in the words of the specification: one descriptor per
    folder key, the first in list order. *)
Fixpoint first_per_folder (ds : list DistrDescriptor) : list DistrDescriptor :=
  match ds with
  | [] => []
  | d :: ds' => d :: filter (fun d' => folder d' <> folder d) (first_per_folder ds')
  end.

(** Placeholder and value of each substitution that is to be performed. *)
Definition filename_substitutions (ds : list DistrDescriptor) (build : text)
    : list (text * text) :=
  (fun d => (Jbr.filename_key d, build ++ suffix d)) <$> first_per_folder ds.

(** The loop over the descriptors without the [seen_file_names] guard: every
    descriptor replaces the placeholder of its folder. *)
Definition filename_loop_unguarded (ds : list DistrDescriptor)
    (build content : text) : text :=
  fold_left
    (fun c dd => Str.replace c (Jbr.filename_key dd) (build ++ suffix dd))
    ds content.

(** ** Templates whose [@] signs only delimit placeholders

    Such a template is a leading literal followed by holes, each hole followed
    by a literal; the literals are free of [@]. *)

Fixpoint render_holes (hs : list (text * text)) : text :=
  match hs with
  | [] => []
  | (name, lit) :: hs' => hole name ++ lit ++ render_holes hs'
  end.

Definition render_template (lead : text) (hs : list (text * text)) : text :=
  lead ++ render_holes hs.

(** No literal may be the name of a placeholder: in [@A@BUILD@C@] the scan
    for [@BUILD@] would match across the holes [@A@] and [@C@]. *)
Definition well_formed (names : list text) (lead : text)
    (hs : list (text * text)) : Prop :=
  (at_sign ∉ lead) /\
  Forall (fun h => (at_sign ∉ fst h) /\ (at_sign ∉ snd h) /\ (snd h ∉ names)) hs.

(** The value assigned to a placeholder name, if any. *)
Fixpoint value_of (values : list (text * text)) (name : text) : option text :=
  match values with
  | [] => None
  | (n, v) :: rest => if decide (n = name) then Some v else value_of rest name
  end.

(** The template with every hole that has a value filled in; the other
    holes stay as they are. *)
Fixpoint instantiate_holes (value : text -> option text)
    (hs : list (text * text)) : text :=
  match hs with
  | [] => []
  | (name, lit) :: hs' =>
      default (hole name) (value name) ++ lit ++ instantiate_holes value hs'
  end.

Definition instantiate (value : text -> option text) (lead : text)
    (hs : list (text * text)) : text :=
  lead ++ instantiate_holes value hs.

(** The template after the holes called [name] have been filled: the value
    merges with the literals on both sides. *)
Fixpoint fill_holes (name value lit0 : text) (hs : list (text * text))
    : text * list (text * text) :=
  match hs with
  | [] => (lit0, [])
  | (n, lit) :: hs' =>
      if decide (n = name)
      then fill_holes name value (lit0 ++ value ++ lit) hs'
      else
        let r := fill_holes name value lit hs' in
        (lit0, (n, fst r) :: snd r)
  end.

Definition well_formed_check (names : list text) (lead : text)
    (hs : list (text * text)) : bool :=
  free_of at_sign lead &&
  forallb (fun h => free_of at_sign (fst h) && free_of at_sign (snd h) &&
                    bool_decide (snd h ∉ names)) hs.

(** Values by placeholder name, and what makes a list of them safe to
    substitute one after the other: distinct names, names and values free of
    [@], and in every value a character foreign to each name. *)
Definition names_of (values : list (text * text)) : list text := fst <$> values.

Definition placeholder_substitutions (values : list (text * text))
    : list (text * text) :=
  (fun nv => (hole (fst nv), snd nv)) <$> values.

Definition foreign_to (names : list text) (value : text) : bool :=
  forallb (fun n => existsb (fun y => bool_decide (y ∉ n)) value) names.

Definition values_ok (values : list (text * text)) : bool :=
  bool_decide (NoDup (names_of values)) &&
  forallb (fun nv => free_of at_sign (fst nv) && free_of at_sign (snd nv) &&
                     foreign_to (names_of values) (snd nv)) values.

Definition jbr_values : list (text * text) :=
  [(txt "TABLE", Jbr.table Jbr.descrs JBR_BUILD);
   (txt "BUILD", JBR_BUILD);
   (txt "DATE", JBR_DATE);
   (txt "FILENAME-win", JBR_BUILD ++ txt "_x64.zip");
   (txt "FILENAME-mac", JBR_BUILD ++ txt ".dmg");
   (txt "FILENAME-linux", JBR_BUILD ++ txt ".tar.gz")].

Definition span_values : list (text * text) :=
  [(txt "TABLE", Span.create_tr SPAN_BUILD);
   (txt "BUILD", SPAN_BUILD);
   (txt "DATE", SPAN_DATE)].

(** The template after the holes of all [values] have been filled, in the
    order of the list. *)
Definition fill_all (values : list (text * text))
    (T : text * list (text * text)) : text * list (text * text) :=
  fold_left (fun T nv => fill_holes (fst nv) (snd nv) (fst T) (snd T)) values T.

(** ** Runs of the entry point *)

(** The events of a complete run; [existed] tells whether [OUT_FOLDER] was
    there at the start. *)
Definition prepare_events (existed : bool) : list event :=
  EvExists OUT_FOLDER ::
  (if existed then [EvRmtree OUT_FOLDER] else []) ++ [EvMkdir OUT_FOLDER].

Definition jbr_events : list event :=
  [EvRead Jbr.template; EvOpenWrite OUT_FOLDER Jbr.template;
   EvWrite OUT_FOLDER Jbr.template].

Definition span_events : list event :=
  [EvRead Span.template; EvOpenWrite OUT_FOLDER Span.template;
   EvWrite OUT_FOLDER Span.template].

Definition cli_events (existed : bool) : list event :=
  prepare_events existed ++
  [EvPrint "Creating JetBrains Research JBR page"] ++ jbr_events ++
  [EvPrint "Creating JetBrains Research SPAN page"] ++ span_events ++
  [EvPrint "Done"].

(** The content of [OUT_FOLDER] after a complete run. *)
Definition pages (jbr_html span_html : text) : gmap string node :=
  <[Span.template := File (Span.content span_html)]>
    (<[Jbr.template := File (Jbr.content jbr_html)]> ∅).

(** The order of a complete run in the words of the specification: the three
    lines are printed after the two generators have run. *)
Definition spec_order_events (existed : bool) : list event :=
  prepare_events existed ++ jbr_events ++ span_events ++
  [EvPrint "Creating JetBrains Research JBR page";
   EvPrint "Creating JetBrains Research SPAN page";
   EvPrint "Done"].

(** The common shape of the two generators. *)
Definition page_generator (template : string) (render : text -> text)
    : io unit :=
  template_html <- read_text template ;;
  open_write OUT_FOLDER template ;;
  write_text OUT_FOLDER template (render template_html).

(** ** Sample inputs *)

(** A page with every placeholder of the JBR template, some of them twice. *)
Definition sample_lead : text := txt "<h1>".
Definition sample_holes : list (text * text) :=
  [(txt "BUILD", txt " (");
   (txt "DATE", txt ")</h1><table>");
   (txt "TABLE", txt "</table><a>");
   (txt "FILENAME-win", txt "</a><a>");
   (txt "FILENAME-mac", txt "</a><a>");
   (txt "FILENAME-linux", txt "</a><p>");
   (txt "BUILD", txt ", ");
   (txt "DATE", txt "</p>")].
Definition sample_template : text := render_template sample_lead sample_holes.

(** A directory with both templates and a stale [out] folder. *)
Definition sample_world : world :=
  World
    (<[Jbr.template := File sample_template]>
       (<[Span.template := File (txt "<p>@BUILD@</p>@TABLE@")]>
          (<[OUT_FOLDER :=
               Folder (<["stale.html"%string := File (txt "old")]> ∅)]> ∅)))
    [].

(** The same directory without the JBR template, and without the SPAN
    template. *)
Definition sample_world_no_jbr : world :=
  World (delete Jbr.template (files sample_world)) [].
Definition sample_world_no_span : world :=
  World (delete Span.template (files sample_world)) [].

(** The same directory with a regular file named [out], and with no [out]
    at all. *)
Definition sample_world_out_is_file : world :=
  World (<[OUT_FOLDER := File (txt "not a directory")]> (files sample_world)) [].
Definition sample_world_no_out : world :=
  World (delete OUT_FOLDER (files sample_world)) [].

(** The content of [out] in [sample_world]. *)
Definition sample_entries : gmap string node :=
  <["stale.html"%string := File (txt "old")]> ∅.

(** A template in which the three placeholders share their [@] signs. *)
Definition overlapping_template : text := txt "@BUILD@TABLE@DATE@".
(** * Facts about the string methods *)

Section StrFacts.

Import Str.

Lemma startswith_prefix (p s : text) :
  startswith p s = true <-> exists k, s = p ++ k.
Proof.
  revert s; induction p as [|a p IH]; intros s; simpl.
  - split; [intros _; now exists s | reflexivity].
  - destruct s as [|b s].
    + split; [discriminate | intros [k Hk]; discriminate].
    + destruct (Ascii.eqb_spec a b) as [->|Hab].
      * rewrite IH. split; intros [k Hk]; exists k.
        -- now rewrite Hk.
        -- now injection Hk.
      * split; [discriminate | intros [k Hk]; injection Hk; congruence].
Qed.

Lemma startswith_app (p k : text) : startswith p (p ++ k) = true.
Proof. apply startswith_prefix. now exists k. Qed.

Lemma startswith_head (a b : ascii) (p s : text) :
  a <> b -> startswith (a :: p) (b :: s) = false.
Proof. intros Hab; simpl. now destruct (Ascii.eqb_spec a b). Qed.

Lemma replace_from_skip (old new : text) (k : nat) (s : text) :
  replace_from old new k s = replace_from old new 0 (drop k s).
Proof.
  revert k; induction s as [|c s IH]; intros [|k]; simpl; try reflexivity.
  now rewrite IH.
Qed.

(** The three equations that describe the scan for a non-empty pattern. *)

Lemma replace_nil (old new : text) : old <> [] -> replace [] old new = [].
Proof. now destruct old. Qed.

Lemma replace_match (old new s : text) :
  old <> [] -> replace (old ++ s) old new = new ++ replace s old new.
Proof.
  destruct old as [|a old]; [congruence | intros _].
  unfold replace. change ((a :: old) ++ s) with (a :: (old ++ s)).
  cbn [replace_from]. change (a :: (old ++ s)) with ((a :: old) ++ s).
  rewrite startswith_app, replace_from_skip.
  assert (E : length (a :: old) - 1 = length old) by (simpl; lia).
  now rewrite E, drop_app_length.
Qed.

Lemma replace_copy (old new : text) (c : ascii) (s : text) :
  startswith old (c :: s) = false ->
  replace (c :: s) old new = c :: replace s old new.
Proof.
  destruct old as [|a old]; [discriminate | intros Hs].
  unfold replace. cbn [replace_from]. now rewrite Hs.
Qed.

(** Induction along the scan. *)
Lemma scan_ind (old : text) (P : text -> Prop) :
  old <> [] ->
  P [] ->
  (forall s, P s -> P (old ++ s)) ->
  (forall c s, startswith old (c :: s) = false -> P s -> P (c :: s)) ->
  forall s, P s.
Proof.
  intros Hne Hnil Hmatch Hcopy s.
  remember (length s) as n eqn:Hn. revert s Hn.
  induction n as [n IH] using lt_wf_ind. intros [|c s] Hn; [exact Hnil|].
  destruct (startswith old (c :: s)) eqn:Hs.
  - apply startswith_prefix in Hs as [k Hk]. rewrite Hk. apply Hmatch.
    apply (IH (length k)); [|reflexivity].
    subst n. rewrite Hk, length_app.
    destruct old; [congruence | simpl; lia].
  - apply Hcopy; [exact Hs|]. apply (IH (length s)); [|reflexivity].
    subst n; simpl; lia.
Qed.

(** [contains] against the usual definition of an occurrence. *)
Lemma contains_occurs (q s : text) :
  contains q s = true <-> exists a b, s = a ++ q ++ b.
Proof.
  induction s as [|x s IH].
  - simpl. rewrite orb_false_r, startswith_prefix. split.
    + intros [k Hk]. now exists [], k.
    + intros [a [b Hab]]. destruct a; [now exists b | discriminate].
  - cbn [contains]. rewrite orb_true_iff, IH, startswith_prefix. split.
    + intros [[k Hk]|[a [b Hab]]].
      * now exists [], k.
      * exists (x :: a), b. now rewrite Hab.
    + intros [[|x' a] [b Hab]].
      * left. now exists b.
      * right. exists a, b. now injection Hab.
Qed.

Lemma contains_cons (q : text) (x : ascii) (s : text) :
  contains q (x :: s) = startswith q (x :: s) || contains q s.
Proof. reflexivity. Qed.

Lemma contains_app_r (q p s : text) :
  contains q s = true -> contains q (p ++ s) = true.
Proof.
  rewrite !contains_occurs. intros [a [b ->]].
  exists (p ++ a), b. now rewrite <- app_assoc.
Qed.

(** Where the pattern does not occur, [replace] changes nothing. *)
Lemma replace_id (s old new : text) :
  old <> [] -> contains old s = false -> replace s old new = s.
Proof.
  intros Hne. induction s as [|x s IH]; intros Hc.
  - now apply replace_nil.
  - rewrite contains_cons in Hc. apply orb_false_iff in Hc as [Hs Hc].
    rewrite replace_copy by exact Hs. now rewrite IH.
Qed.

(** A pattern cannot occur in a text that lacks one of its characters. *)
Lemma contains_elem (q s : text) (c : ascii) :
  c ∈ q -> contains q s = true -> c ∈ s.
Proof.
  intros Hc [a [b ->]]%contains_occurs.
  rewrite !elem_of_app. auto.
Qed.

Lemma contains_absent (q s : text) (c : ascii) :
  c ∈ q -> c ∉ s -> contains q s = false.
Proof.
  intros Hq Hs. destruct (contains q s) eqn:E; [|reflexivity].
  destruct Hs. now apply (contains_elem q).
Qed.

Lemma replace_absent (s old new : text) (c : ascii) :
  c ∈ old -> c ∉ s -> replace s old new = s.
Proof.
  intros Hq Hs. apply replace_id.
  - intros ->. now apply not_elem_of_nil in Hq.
  - now apply (contains_absent _ _ c).
Qed.

(** Text free of the first character of the pattern is copied. *)
Lemma replace_app_free (c : ascii) (rest new seg s : text) :
  c ∉ seg ->
  replace (seg ++ s) (c :: rest) new = seg ++ replace s (c :: rest) new.
Proof.
  induction seg as [|x seg IH]; intros Hfree; [reflexivity|].
  apply not_elem_of_cons in Hfree as [Hx Hfree].
  change ((x :: seg) ++ s) with (x :: (seg ++ s)).
  rewrite replace_copy by (apply startswith_head; congruence).
  now rewrite IH.
Qed.

(** Every one of the [n - 1] occurrences that separate [n] pattern-free
    segments is replaced. *)
Lemma replace_join (c : ascii) (rest new : text) (segs : list text) :
  Forall (fun seg => c ∉ seg) segs ->
  replace (join (c :: rest) segs) (c :: rest) new = join new segs.
Proof.
  induction 1 as [|seg segs Hseg Hsegs IH]; [reflexivity|].
  destruct segs as [|seg' segs].
  - cbn [join]. rewrite <- (app_nil_r seg) at 1.
    rewrite replace_app_free by exact Hseg.
    now rewrite replace_nil, app_nil_r.
  - change (join ?p (seg :: seg' :: segs))
      with (seg ++ p ++ join p (seg' :: segs)).
    rewrite replace_app_free by exact Hseg.
    rewrite replace_match by discriminate. now rewrite IH.
Qed.

(** A pattern cannot start inside text that is free of its first character. *)
Lemma contains_app_free (c : ascii) (q n r : text) :
  c ∉ n -> contains (c :: q) (n ++ r) = contains (c :: q) r.
Proof.
  induction n as [|x n IH]; intros Hfree; [reflexivity|].
  apply not_elem_of_cons in Hfree as [Hx Hfree].
  change ((x :: n) ++ r) with (x :: (n ++ r)).
  rewrite contains_cons, startswith_head by congruence. now apply IH.
Qed.

(** ** The scan, as a decomposition of the text *)

Lemma contains_length (q s : text) :
  contains q s = true -> length q <= length s.
Proof.
  intros [a [b ->]]%contains_occurs. rewrite !length_app. lia.
Qed.

Lemma startswith_contains (q s : text) :
  startswith q s = true -> contains q s = true.
Proof. intros H. destruct s; cbn [contains]; now rewrite H. Qed.

Lemma startswith_app_short (p x y : text) :
  startswith p (x ++ y) = true -> length p <= length x ->
  startswith p x = true.
Proof.
  revert x; induction p as [|a p IH]; intros [|b x]; cbn; try easy; try lia.
  destruct (Ascii.eqb a b); [|discriminate]. intros H Hlen.
  apply IH; [exact H | lia].
Qed.

Lemma startswith_app_more (p x y : text) :
  startswith p x = true -> startswith p (x ++ y) = true.
Proof.
  intros [k ->]%startswith_prefix. rewrite <- app_assoc. apply startswith_app.
Qed.

Lemma app_take_drop_split (c : ascii) (gap old s : text) (k : nat) :
  c :: gap ++ old ++ s = (c :: gap ++ take k old) ++ (drop k old ++ s).
Proof.
  cbn [app]. f_equal. rewrite <- app_assoc. f_equal.
  now rewrite app_assoc, take_drop.
Qed.

(** In front of a match that the scan finds, the characters are copied. *)
Lemma replace_gap (old new gap s : text) :
  old <> [] ->
  contains old (gap ++ take (length old - 1) old) = false ->
  replace (gap ++ old ++ s) old new = gap ++ replace (old ++ s) old new.
Proof.
  intros Hne. induction gap as [|c gap IH]; intros Hc; [reflexivity|].
  cbn [app] in *.
  rewrite contains_cons in Hc. apply orb_false_iff in Hc as [Hs Hc].
  rewrite replace_copy; [now rewrite IH|].
  destruct (startswith old (c :: gap ++ old ++ s)) eqn:E; [|reflexivity].
  rewrite (app_take_drop_split c gap old s (length old - 1)) in E.
  apply startswith_app_short in E; [congruence|].
  cbn [length]. rewrite length_app, length_take.
  destruct old; [congruence | cbn [length]; lia].
Qed.

(** Any decomposition along the scan gives the result of [replace]. *)
Lemma replace_of_scanned (old new s : text) (gaps : list text) :
  old <> [] -> scanned old s gaps -> replace s old new = join new gaps.
Proof.
  intros Hne. induction 1 as [gap Hc|gap s gaps Hc Hs IH].
  - now apply replace_id.
  - rewrite replace_gap, replace_match, IH by assumption.
    now destruct Hs.
Qed.

(** Every text has such a decomposition. *)
Lemma scanned_exists (old s : text) :
  old <> [] -> exists gaps, scanned old s gaps.
Proof.
  intros Hne. revert s.
  refine (scan_ind old _ Hne _ _ _); [| intros s [gaps Hs] | intros c s Hc [gaps Hs]].
  - exists [[]]. constructor. now destruct old.
  - exists ([] :: gaps). apply (scanned_cut old [] s gaps); [|exact Hs].
    destruct (contains old ([] ++ take (length old - 1) old)) eqn:E;
      [|reflexivity].
    apply contains_length in E. cbn [app] in E. rewrite length_take in E.
    destruct old; [congruence | cbn [length] in E; lia].
  - destruct Hs as [gap Hgap|gap s gaps Hgap Hs].
    + exists [c :: gap]. constructor. rewrite contains_cons, Hc. exact Hgap.
    + exists ((c :: gap) :: gaps).
      apply (scanned_cut old (c :: gap) s gaps); [|exact Hs].
      cbn [app]. rewrite contains_cons, Hgap, orb_false_r.
      destruct (startswith old (c :: gap ++ take (length old - 1) old)) eqn:E;
        [|reflexivity].
      rewrite (app_take_drop_split c gap old s (length old - 1)) in Hc.
      now rewrite (startswith_app_more _ _ _ E) in Hc.
Qed.

Lemma scanned_join (old s : text) (gaps : list text) :
  scanned old s gaps -> s = join old gaps.
Proof.
  induction 1 as [gap Hc|gap s gaps Hc Hs IH]; [reflexivity|].
  rewrite IH. now destruct Hs.
Qed.

(** A separator that cannot take part in a match splits the work of
    [replace]: its first character is foreign to the pattern, and the first
    character of the pattern is foreign to it. *)
Lemma replace_app_sep (c x : ascii) (rest sep new s : text) :
  c ∉ x :: sep -> x ∉ c :: rest ->
  forall g,
    replace (g ++ (x :: sep) ++ s) (c :: rest) new =
    replace g (c :: rest) new ++ (x :: sep) ++ replace s (c :: rest) new.
Proof.
  intros Hc Hx.
  refine (scan_ind (c :: rest) _ _ _ _ _);
    [discriminate | | intros g IH | intros a g Ha IH].
  - rewrite replace_nil by discriminate. cbn [app].
    exact (replace_app_free c rest new (x :: sep) s Hc).
  - rewrite <- app_assoc, !replace_match, IH by discriminate.
    now rewrite <- app_assoc.
  - change ((a :: g) ++ ?y) with (a :: (g ++ y)).
    rewrite !replace_copy, IH; [reflexivity | exact Ha |].
    destruct (startswith (c :: rest) (a :: g ++ (x :: sep) ++ s)) eqn:E;
      [|reflexivity].
    apply startswith_prefix in E as [k Hk].
    change (a :: g ++ ?y) with ((a :: g) ++ y) in Hk.
    apply app_eq_inv in Hk as [[k' [Hk' _]]|[k' [Hk' Hk'']]].
    + rewrite Hk', startswith_app in Ha. discriminate.
    + destruct k' as [|x' k'].
      * rewrite app_nil_r in Hk'. rewrite <- Hk' in Ha.
        rewrite <- (app_nil_r (c :: rest)) in Ha at 2.
        rewrite startswith_app in Ha. discriminate.
      * injection Hk'' as <- _. destruct Hx. rewrite Hk', elem_of_app.
        right. apply list_elem_of_here.
Qed.

Lemma replace_join_sep (c x : ascii) (rest sep new : text)
    (gaps : list text) :
  c ∉ x :: sep -> x ∉ c :: rest ->
  replace (join (x :: sep) gaps) (c :: rest) new =
  join (x :: sep) (map (fun g => replace g (c :: rest) new) gaps).
Proof.
  intros Hc Hx. induction gaps as [|g gaps IH]; [reflexivity|].
  destruct gaps as [|g' gaps]; [reflexivity|].
  change (join ?p (g :: g' :: gaps)) with (g ++ p ++ join p (g' :: gaps)).
  rewrite replace_app_sep, IH by assumption. reflexivity.
Qed.

End StrFacts.

(** ** Replacement creates no placeholder

    A placeholder is a text [c :: w ++ [c]] whose body [w] is free of the
    delimiter [c].  When the inserted text is free of [c] and has a character
    foreign to the placeholder, an occurrence of the placeholder in the result
    of [replace] can only be one that the scan copied from the input. *)

Section Inert.

Import Str.

Variable c : ascii.
Variables old new : text.
Hypothesis old_nonempty : old <> [].
Hypothesis new_free : c ∉ new.

Variable y : ascii.
Hypothesis y_new : y ∈ new.
Hypothesis y_c : y <> c.

(** A placeholder tail found at the front of the result was at the front of
    the input. *)
Lemma startswith_through_replace (s : text) :
  forall w, c ∉ w -> y ∉ w ->
    startswith (w ++ [c]) (replace s old new) = true ->
    startswith (w ++ [c]) s = true.
Proof.
  revert s. refine (scan_ind old _ old_nonempty _ _ _); [| intros s _ | intros x s Hx IH].
  - intros w _ _. rewrite replace_nil by assumption.
    destruct w; discriminate.
  - intros w Hcw Hyw. rewrite replace_match by assumption.
    intros [k Hk]%startswith_prefix. exfalso.
    apply app_eq_inv in Hk as [[k' [Hk' _]]|[k' [Hk' _]]].
    + apply new_free. rewrite Hk', !elem_of_app, list_elem_of_singleton. auto.
    + assert (Hin : y ∈ w ++ [c]) by (rewrite Hk', elem_of_app; auto).
      rewrite elem_of_app, list_elem_of_singleton in Hin. tauto.
  - intros w Hcw Hyw. rewrite replace_copy by assumption.
    destruct w as [|a w]; simpl.
    + now destruct (Ascii.eqb c x).
    + destruct (Ascii.eqb a x); [|discriminate].
      apply not_elem_of_cons in Hcw as [_ Hcw].
      apply not_elem_of_cons in Hyw as [_ Hyw]. now apply IH.
Qed.

(** An occurrence in the result is an occurrence in the input, and the
    replaced pattern itself never survives. *)
Lemma contains_through_replace (w s : text) :
  c ∉ w -> y ∉ w ->
  contains (c :: w ++ [c]) (replace s old new) = true ->
  contains (c :: w ++ [c]) s = true /\ c :: w ++ [c] <> old.
Proof.
  intros Hcw Hyw.
  revert s. refine (scan_ind old _ old_nonempty _ _ _); [| intros s IH | intros x s Hx IH].
  - rewrite replace_nil by assumption. discriminate.
  - rewrite replace_match, contains_app_free by assumption. intros H.
    destruct (IH H) as [Hs Hne]. split; [|exact Hne].
    now apply contains_app_r.
  - rewrite replace_copy by assumption. rewrite !contains_cons.
    intros [H|H]%orb_true_iff.
    + assert (Hq : startswith (c :: w ++ [c]) (x :: s) = true).
      { simpl in *. destruct (Ascii.eqb c x); [|discriminate].
        now apply startswith_through_replace. }
      split; [now rewrite Hq|]. intros E. rewrite E in Hq. congruence.
    + destruct (IH H) as [Hs Hne]. split; [|exact Hne].
      rewrite Hs. apply orb_true_r.
Qed.

End Inert.

Lemma placeholder_body_shape (c : ascii) (q w : text) :
  placeholder_body c q = Some w -> q = c :: w ++ [c] /\ c ∉ w.
Proof.
  unfold placeholder_body. destruct q as [|a rest]; [discriminate|].
  destruct (reverse rest) as [|b rw] eqn:Hrev; [discriminate|].
  destruct (Ascii.eqb_spec a c) as [->|]; [|discriminate].
  destruct (Ascii.eqb_spec b c) as [->|]; [|discriminate].
  simpl. case_bool_decide as Hc; [|discriminate].
  intros [= <-]. split.
  - f_equal. rewrite <- (reverse_involutive rest), Hrev.
    now rewrite reverse_cons.
  - now rewrite elem_of_reverse.
Qed.

Section InertFacts.

Import Str.

Variables (c : ascii) (q old new : text).
Hypothesis old_nonempty : old <> [].
Hypothesis q_inert : inert c q new = true.

Lemma inert_through_replace (s : text) :
  contains q (replace s old new) = true ->
  contains q s = true /\ q <> old.
Proof.
  revert q_inert. unfold inert.
  destruct (placeholder_body c q) as [w|] eqn:Hw; [|discriminate].
  apply placeholder_body_shape in Hw as [Hq Hcw].
  intros [Hfree Hy]%andb_true_iff.
  apply bool_decide_eq_true in Hfree.
  apply existsb_exists in Hy as [y [Hy Hyq]].
  apply list_elem_of_In in Hy. apply bool_decide_eq_true in Hyq.
  rewrite Hq in Hyq |- *.
  apply not_elem_of_cons in Hyq as [Hyc Hyw].
  rewrite elem_of_app in Hyw.
  apply (contains_through_replace c old new old_nonempty Hfree y Hy Hyc);
    [exact Hcw | tauto].
Qed.

(** No occurrence of [q] is created. *)
Lemma replace_keeps_absent (s : text) :
  contains q s = false -> contains q (replace s old new) = false.
Proof.
  intros Hs. destruct (contains q (replace s old new)) eqn:E; [|reflexivity].
  apply inert_through_replace in E as [E _]. congruence.
Qed.

(** No occurrence of the replaced placeholder is left. *)
Lemma replace_removes (s : text) :
  q = old -> contains old (replace s old new) = false.
Proof.
  intros Hq. destruct (contains q (replace s old new)) eqn:E.
  - apply inert_through_replace in E as [_ E]. contradiction.
  - congruence.
Qed.

End InertFacts.

Section FirstWins.

Import Jbr.

Lemma filename_key_inj (d d' : DistrDescriptor) :
  filename_key d = filename_key d' <-> folder d = folder d'.
Proof.
  unfold filename_key. split; [|now intros ->].
  intros H. apply app_inv_head in H. now apply app_inv_tail in H.
Qed.

(** Filtering on a property of the folder commutes with the selection. *)
Lemma first_per_folder_filter (P : DistrDescriptor -> Prop)
    `{!forall d, Decision (P d)} (ds : list DistrDescriptor) :
  (forall d d', folder d = folder d' -> P d -> P d') ->
  filter P (first_per_folder ds) = first_per_folder (filter P ds).
Proof.
  intros Hresp. induction ds as [|d ds IH]; [reflexivity|].
  cbn [first_per_folder]. destruct (decide (P d)) as [Hd|Hd].
  - rewrite !filter_cons_True by assumption. cbn [first_per_folder].
    f_equal. rewrite <- IH, !list_filter_filter.
    apply list_filter_iff. tauto.
  - rewrite !filter_cons_False by assumption.
    rewrite <- IH, list_filter_filter. apply list_filter_iff.
    intros d'. split; [tauto|]. intros Hd'. split; [exact Hd'|].
    intros E. apply Hd. now apply (Hresp d').
Qed.

Lemma first_per_folder_NoDup (ds : list DistrDescriptor) :
  NoDup (folder <$> first_per_folder ds).
Proof.
  induction ds as [|d ds IH]; [constructor|].
  cbn [first_per_folder]. rewrite fmap_cons. apply NoDup_cons. split.
  - intros [d' [E Hd']]%list_elem_of_fmap.
    apply list_elem_of_filter in Hd' as [Hne _]. congruence.
  - revert IH. generalize (first_per_folder ds). intros l.
    induction l as [|x l IHl]; [intros _; constructor|].
    rewrite fmap_cons, NoDup_cons. intros [Hx Hl].
    destruct (decide (folder x <> folder d)) as [Hk|Hk].
    + rewrite filter_cons_True, fmap_cons by exact Hk.
      apply NoDup_cons. split; [|now apply IHl].
      intros [x' [E Hx']]%list_elem_of_fmap.
      apply list_elem_of_filter in Hx' as [_ Hx'].
      apply Hx. rewrite E. now apply list_elem_of_fmap_2.
    + rewrite filter_cons_False by exact Hk. now apply IHl.
Qed.

(** The selected descriptors are exactly the first ones of their folder. *)
Lemma first_per_folder_head (ds : list DistrDescriptor) (d0 : DistrDescriptor) :
  d0 ∈ first_per_folder ds <->
  head (filter (fun x => folder x = folder d0) ds) = Some d0.
Proof.
  induction ds as [|d ds IH].
  - cbn. split; [intros H%elem_of_nil; contradiction | discriminate].
  - cbn [first_per_folder]. rewrite elem_of_cons, list_elem_of_filter, IH.
    destruct (decide (folder d = folder d0)) as [E|E].
    + rewrite filter_cons_True by exact E. cbn. split.
      * intros [->|[Hne _]]; [reflexivity | congruence].
      * intros [= ->]. now left.
    + rewrite filter_cons_False by exact E. split.
      * intros [->|[_ H]]; [congruence | exact H].
      * intros H. right. split; [congruence | exact H].
Qed.

(** The loop, started with an arbitrary set of keys already seen. *)
Lemma filename_loop_from (build : text) (ds : list DistrDescriptor) :
  forall (seen : gset text) (c : text),
    snd (fold_left (filename_step build) ds (seen, c)) =
    apply_substitutions
      (filename_substitutions
         (filter (fun d => filename_key d ∉ seen) ds) build) c.
Proof.
  induction ds as [|d ds IH]; intros seen c; [reflexivity|].
  cbn [fold_left]. unfold filename_step at 2.
  destruct (decide (filename_key d ∉ seen)) as [Hd|Hd].
  - rewrite filter_cons_True by exact Hd. rewrite IH.
    unfold filename_substitutions. cbn [first_per_folder].
    rewrite fmap_cons. unfold apply_substitutions at 2. cbn [fold_left fst snd].
    fold (apply_substitutions
            ((fun d0 => (filename_key d0, build ++ suffix d0)) <$>
               filter (fun d' => folder d' <> folder d)
                 (first_per_folder (filter (fun d0 => filename_key d0 ∉ seen) ds)))
            (Str.replace c (filename_key d) (build ++ suffix d))).
    f_equal. f_equal.
    rewrite first_per_folder_filter by (intros ? ? E; now rewrite E).
    f_equal. rewrite list_filter_filter. apply list_filter_iff.
    intros d'. rewrite not_elem_of_union, not_elem_of_singleton.
    rewrite filename_key_inj. tauto.
  - rewrite filter_cons_False by exact Hd. apply IH.
Qed.

Lemma filename_loop_first_wins (build : text) (ds : list DistrDescriptor)
    (c : text) :
  snd (filename_loop ds build c) =
  apply_substitutions (filename_substitutions ds build) c.
Proof.
  unfold filename_loop. rewrite filename_loop_from. do 2 f_equal.
  induction ds as [|d ds IH]; [reflexivity|].
  rewrite filter_cons_True by apply not_elem_of_empty. now rewrite IH.
Qed.

(** With values that cannot bring a placeholder back, the guard of the loop
    only skips replacements that would find nothing. *)
Lemma filename_loop_unguarded_from (build : text) (ds0 : list DistrDescriptor) :
  (forall d d', d ∈ ds0 -> d' ∈ ds0 ->
                inert at_sign (filename_key d) (build ++ suffix d') = true) ->
  forall ds (seen : gset text) c,
    Forall (fun d => d ∈ ds0) ds ->
    (forall k, k ∈ seen ->
               (exists d, d ∈ ds0 /\ k = filename_key d) /\
               Str.contains k c = false) ->
    snd (fold_left (filename_step build) ds (seen, c)) =
    filename_loop_unguarded ds build c.
Proof.
  intros Hinert ds.
  induction ds as [|d ds IH]; intros seen c Hds Hseen; [reflexivity|].
  apply Forall_cons in Hds as [Hd Hds].
  assert (Hkey : filename_key d <> []) by discriminate.
  unfold filename_loop_unguarded. cbn [fold_left].
  fold (filename_loop_unguarded ds build
          (Str.replace c (filename_key d) (build ++ suffix d))).
  unfold filename_step at 2.
  destruct (decide (filename_key d ∉ seen)) as [Hnew|Hold].
  - apply IH; [exact Hds|]. intros k [->%elem_of_singleton|Hk]%elem_of_union.
    + split; [now exists d|].
      apply (replace_removes at_sign (filename_key d)); auto.
    + destruct (Hseen k Hk) as [[d' [Hd' ->]] Hc]. split; [now exists d'|].
      apply (replace_keeps_absent at_sign); auto.
  - apply dec_stable in Hold. destruct (Hseen _ Hold) as [_ Hc].
    rewrite (replace_id c) by assumption. now apply IH.
Qed.

End FirstWins.

(** An event that differs from every member of an explicit list. *)
Ltac absent_event :=
  let H := fresh "H" in
  intros H; cbn [prepare_events jbr_events span_events app] in H;
  repeat (apply elem_of_app in H as [H|H] || apply elem_of_cons in H as [H|H];
          try discriminate H);
  try (now apply elem_of_nil in H).

(** * Running the entry point *)

Section Run.

Lemma folder_inv (a b : gmap string node) :
  Some (Folder a) = Some (Folder b) -> a = b.
Proof. congruence. Qed.

Lemma bind_run {A B} (m : io A) (k : A -> io B) (w : world) :
  bind m k w =
  match m w with
  | (Returned a, w') => k a w'
  | (Raised e, w') => (Raised e, w')
  end.
Proof. reflexivity. Qed.

Lemma prepare_run (w : world) :
  prepare_out_folder w =
  match files w !! OUT_FOLDER with
  | Some (File _) =>
      (Raised NotADirectoryError,
       World (files w) (trace w ++ [EvExists OUT_FOLDER; EvRmtree OUT_FOLDER]))
  | o =>
      (Returned tt,
       World (<[OUT_FOLDER := Folder ∅]> (files w))
             (trace w ++ prepare_events (bool_decide (is_Some o))))
  end.
Proof.
  destruct w as [fs tr].
  unfold prepare_out_folder, os_path_exists, shutil_rmtree, os_mkdir,
    bind, log, get_files, put_files, ret, raise, prepare_events.
  cbn [files trace].
  destruct (fs !! OUT_FOLDER) as [[c|entries]|] eqn:E.
  - rewrite bool_decide_eq_true_2 by eauto. cbn [files trace]. rewrite E.
    now rewrite <- app_assoc.
  - rewrite bool_decide_eq_true_2 by eauto. cbn [files trace]. rewrite E.
    cbn [files trace]. rewrite lookup_delete_eq, insert_delete_eq.
    now rewrite <- !app_assoc.
  - rewrite bool_decide_eq_false_2 by (intros [? ?]; discriminate).
    cbn [files trace]. rewrite E. now rewrite <- !app_assoc.
Qed.

Lemma page_generator_run (template : string) (render : text -> text)
    (w : world) (entries : gmap string node) :
  files w !! OUT_FOLDER = Some (Folder entries) ->
  template <> OUT_FOLDER ->
  page_generator template render w =
  match files w !! template with
  | None =>
      (Raised FileNotFoundError,
       World (files w) (trace w ++ [EvRead template]))
  | Some (Folder _) =>
      (Raised IsADirectoryError,
       World (files w) (trace w ++ [EvRead template]))
  | Some (File template_html) =>
      match entries !! template with
      | Some (Folder _) =>
          (Raised IsADirectoryError,
           World (files w)
             (trace w ++ [EvRead template; EvOpenWrite OUT_FOLDER template]))
      | _ =>
          (Returned tt,
           World (<[OUT_FOLDER :=
                      Folder (<[template := File (render template_html)]> entries)]>
                    (files w))
             (trace w ++ [EvRead template; EvOpenWrite OUT_FOLDER template;
                          EvWrite OUT_FOLDER template]))
      end
  end.
Proof.
  destruct w as [fs tr]. cbn [files trace]. intros Hout Hne.
  unfold page_generator, read_text, open_write, write_text,
    bind, log, get_files, put_files, ret, raise.
  cbn [files trace].
  destruct (fs !! template) as [[t|?]|]; try reflexivity.
  cbn [files trace]. rewrite Hout.
  destruct (entries !! template) as [[?|?]|] eqn:E; cbn [files trace];
    rewrite <- ?app_assoc; try reflexivity.
  all: rewrite lookup_insert_eq, !insert_insert_eq; reflexivity.
Qed.

Lemma page_generator_ok (template : string) (render : text -> text)
    (w : world) (entries : gmap string node) (template_html : text) :
  files w !! OUT_FOLDER = Some (Folder entries) ->
  template <> OUT_FOLDER ->
  (forall m, entries !! template <> Some (Folder m)) ->
  files w !! template = Some (File template_html) ->
  page_generator template render w =
  (Returned tt,
   World (<[OUT_FOLDER :=
              Folder (<[template := File (render template_html)]> entries)]>
            (files w))
     (trace w ++ [EvRead template; EvOpenWrite OUT_FOLDER template;
                  EvWrite OUT_FOLDER template])).
Proof.
  intros Hout Hne Hfree Htpl.
  rewrite (page_generator_run _ _ w entries Hout Hne), Htpl.
  destruct (entries !! template) as [[?|m]|] eqn:E; try reflexivity.
  now destruct (Hfree m).
Qed.

(** Without [OUT_FOLDER] a generator fails when it opens its output. *)
Lemma page_generator_no_folder (template : string) (render : text -> text)
    (w : world) :
  files w !! OUT_FOLDER = None ->
  page_generator template render w =
  match files w !! template with
  | Some (File _) =>
      (Raised FileNotFoundError,
       World (files w)
         (trace w ++ [EvRead template; EvOpenWrite OUT_FOLDER template]))
  | Some (Folder _) =>
      (Raised IsADirectoryError,
       World (files w) (trace w ++ [EvRead template]))
  | None =>
      (Raised FileNotFoundError,
       World (files w) (trace w ++ [EvRead template]))
  end.
Proof.
  destruct w as [fs tr]. cbn [files trace]. intros Hout.
  unfold page_generator, read_text, open_write, write_text,
    bind, log, get_files, put_files, ret, raise.
  cbn [files trace].
  destruct (fs !! template) as [[t|?]|]; try reflexivity.
  cbn [files trace]. rewrite Hout. now rewrite <- app_assoc.
Qed.

(** Every run of the entry point, by the state of the three entries of [DIR]
    it depends on. *)
Lemma cli_run (w : world) :
  _cli w =
  match files w !! OUT_FOLDER with
  | Some (File _) =>
      (Raised NotADirectoryError,
       World (files w) (trace w ++ [EvExists OUT_FOLDER; EvRmtree OUT_FOLDER]))
  | o =>
      let before := prepare_events (bool_decide (is_Some o)) in
      let jbr_failed e :=
        (Raised e,
         World (<[OUT_FOLDER := Folder ∅]> (files w))
           (trace w ++ before ++
              [EvPrint "Creating JetBrains Research JBR page";
               EvRead Jbr.template])) in
      match files w !! Jbr.template with
      | None => jbr_failed FileNotFoundError
      | Some (Folder _) => jbr_failed IsADirectoryError
      | Some (File jbr_html) =>
          let span_failed e :=
            (Raised e,
             World (<[OUT_FOLDER :=
                        Folder (<[Jbr.template := File (Jbr.content jbr_html)]> ∅)]>
                      (files w))
               (trace w ++ before ++
                  [EvPrint "Creating JetBrains Research JBR page"] ++
                  jbr_events ++
                  [EvPrint "Creating JetBrains Research SPAN page";
                   EvRead Span.template])) in
          match files w !! Span.template with
          | None => span_failed FileNotFoundError
          | Some (Folder _) => span_failed IsADirectoryError
          | Some (File span_html) =>
              (Returned tt,
               World (<[OUT_FOLDER := Folder (pages jbr_html span_html)]> (files w))
                 (trace w ++ cli_events (bool_decide (is_Some o))))
          end
      end
  end.
Proof.
  unfold _cli. rewrite bind_run, prepare_run.
  assert (Hjbr : Jbr.template <> OUT_FOLDER) by discriminate.
  assert (Hspan : Span.template <> OUT_FOLDER) by discriminate.
  assert (Hpages : Span.template <> Jbr.template) by discriminate.
  set (o := files w !! OUT_FOLDER).
  assert (Hprepared :
    forall tr,
      (print "Creating JetBrains Research JBR page" ;;
       generate_jbr_data ;;
       print "Creating JetBrains Research SPAN page" ;;
       generate_span_data ;; print "Done")
        (World (<[OUT_FOLDER := Folder ∅]> (files w)) (trace w ++ tr)) =
      match files w !! Jbr.template with
      | None =>
          (Raised FileNotFoundError,
           World (<[OUT_FOLDER := Folder ∅]> (files w))
             (trace w ++ tr ++
                [EvPrint "Creating JetBrains Research JBR page";
                 EvRead Jbr.template]))
      | Some (Folder _) =>
          (Raised IsADirectoryError,
           World (<[OUT_FOLDER := Folder ∅]> (files w))
             (trace w ++ tr ++
                [EvPrint "Creating JetBrains Research JBR page";
                 EvRead Jbr.template]))
      | Some (File jbr_html) =>
          match files w !! Span.template with
          | None =>
              (Raised FileNotFoundError,
               World (<[OUT_FOLDER :=
                          Folder (<[Jbr.template := File (Jbr.content jbr_html)]> ∅)]>
                        (files w))
                 (trace w ++ tr ++
                    [EvPrint "Creating JetBrains Research JBR page"] ++
                    jbr_events ++
                    [EvPrint "Creating JetBrains Research SPAN page";
                     EvRead Span.template]))
          | Some (Folder _) =>
              (Raised IsADirectoryError,
               World (<[OUT_FOLDER :=
                          Folder (<[Jbr.template := File (Jbr.content jbr_html)]> ∅)]>
                        (files w))
                 (trace w ++ tr ++
                    [EvPrint "Creating JetBrains Research JBR page"] ++
                    jbr_events ++
                    [EvPrint "Creating JetBrains Research SPAN page";
                     EvRead Span.template]))
          | Some (File span_html) =>
              (Returned tt,
               World (<[OUT_FOLDER := Folder (pages jbr_html span_html)]> (files w))
                 (trace w ++ tr ++
                    [EvPrint "Creating JetBrains Research JBR page"] ++
                    jbr_events ++
                    [EvPrint "Creating JetBrains Research SPAN page"] ++
                    span_events ++ [EvPrint "Done"]))
          end
      end).
  { intros tr. rewrite bind_run. unfold print at 1, log at 1. cbn [files trace].
    rewrite bind_run.
    change generate_jbr_data with (page_generator Jbr.template Jbr.content).
    rewrite (page_generator_run _ _ _ ∅)
      by (try exact Hjbr; cbn [files]; apply lookup_insert_eq).
    cbn [files trace]. rewrite (lookup_insert_ne _ _ _ _ (not_eq_sym Hjbr)).
    destruct (files w !! Jbr.template) as [[jbr_html|?]|];
      [| now rewrite <- !app_assoc ..].
    rewrite lookup_empty, insert_insert_eq.
    rewrite bind_run. unfold print at 1, log at 1. cbn [files trace].
    rewrite bind_run.
    change generate_span_data with (page_generator Span.template Span.content).
    rewrite (page_generator_run _ _ _
               (<[Jbr.template := File (Jbr.content jbr_html)]> ∅))
      by (try exact Hspan; cbn [files]; apply lookup_insert_eq).
    cbn [files trace]. rewrite (lookup_insert_ne _ _ _ _ (not_eq_sym Hspan)).
    destruct (files w !! Span.template) as [[span_html|?]|];
      [| now rewrite <- !app_assoc ..].
    rewrite (lookup_insert_ne _ _ _ _ (not_eq_sym Hpages)), lookup_empty.
    rewrite insert_insert_eq. unfold print, log. cbn [files trace].
    unfold pages. now rewrite <- !app_assoc. }
  destruct o as [[c|entries]|]; [reflexivity | |]; rewrite Hprepared;
    unfold cli_events; cbn zeta;
    destruct (files w !! Jbr.template) as [[?|?]|]; try reflexivity.
Qed.

Lemma cli_run_success (w : world) (jbr_html span_html : text) :
  (forall c, files w !! OUT_FOLDER <> Some (File c)) ->
  files w !! Jbr.template = Some (File jbr_html) ->
  files w !! Span.template = Some (File span_html) ->
  _cli w =
  (Returned tt,
   World (<[OUT_FOLDER := Folder (pages jbr_html span_html)]> (files w))
     (trace w ++ cli_events (bool_decide (is_Some (files w !! OUT_FOLDER))))).
Proof.
  intros Hout Hjbr Hspan. rewrite cli_run, Hjbr, Hspan.
  destruct (files w !! OUT_FOLDER) as [[c|entries]|]; try reflexivity.
  now destruct (Hout c).
Qed.

Lemma cli_success_inv (w : world) :
  fst (_cli w) = Returned tt ->
  (forall c, files w !! OUT_FOLDER <> Some (File c)) /\
  exists jbr_html span_html,
    files w !! Jbr.template = Some (File jbr_html) /\
    files w !! Span.template = Some (File span_html).
Proof.
  rewrite cli_run.
  destruct (files w !! OUT_FOLDER) as [[c|entries]|];
    destruct (files w !! Jbr.template) as [[jbr_html|?]|];
    destruct (files w !! Span.template) as [[span_html|?]|];
    cbn; try discriminate; intros _; (split; [congruence | eauto]).
Qed.

Lemma pages_dom (jbr_html span_html : text) :
  dom (pages jbr_html span_html) = {[ Jbr.template; Span.template ]}.
Proof. unfold pages. rewrite !dom_insert_L, dom_empty_L. set_solver. Qed.

End Run.

(** * Templates: every hole is filled *)

Section Templates.

Import Str.

Lemma free_of_spec (c : ascii) (s : text) : free_of c s = true -> c ∉ s.
Proof.
  unfold free_of. rewrite forallb_forall. intros H Hin%list_elem_of_In.
  apply H in Hin. now rewrite Ascii.eqb_refl in Hin.
Qed.

Lemma hole_nonempty (name : text) : hole name <> [].
Proof. discriminate. Qed.

Lemma at_sign_in_hole (name : text) : at_sign ∈ hole name.
Proof. apply list_elem_of_here. Qed.

(** Two delimited names that start at the same place are the same name. *)
Lemma delimited_startswith (b1 : text) :
  forall b2 rest,
    at_sign ∉ b1 -> at_sign ∉ b2 ->
    startswith (b1 ++ [at_sign]) (b2 ++ at_sign :: rest) = true -> b1 = b2.
Proof.
  induction b1 as [|a b1 IH]; intros [|x b2] rest H1 H2;
    cbn [startswith app].
  - reflexivity.
  - apply not_elem_of_cons in H2 as [Hx _].
    destruct (Ascii.eqb_spec at_sign x); [congruence | discriminate].
  - apply not_elem_of_cons in H1 as [Ha _].
    destruct (Ascii.eqb_spec a at_sign); [congruence | discriminate].
  - apply not_elem_of_cons in H1 as [_ H1].
    apply not_elem_of_cons in H2 as [_ H2].
    destruct (Ascii.eqb_spec a x) as [->|]; [|discriminate].
    intros H. f_equal. now apply (IH b2 rest).
Qed.

Lemma render_holes_head (hs : list (text * text)) :
  render_holes hs = [] \/ exists r, render_holes hs = at_sign :: r.
Proof.
  destruct hs as [|[n l] hs]; [now left | right].
  cbn [render_holes]. unfold hole. eexists. reflexivity.
Qed.

(** The opening [@] of another hole starts no match. *)
Lemma hole_other_startswith (name n rest : text) :
  at_sign ∉ name -> at_sign ∉ n -> n <> name ->
  startswith (hole name) (hole n ++ rest) = false.
Proof.
  intros Hname Hn Hne.
  destruct (startswith (hole name) (hole n ++ rest)) eqn:E; [|reflexivity].
  unfold hole in E. cbn [startswith app] in E. rewrite Ascii.eqb_refl in E.
  rewrite <- app_assoc in E. cbn [app] in E.
  apply delimited_startswith in E; congruence.
Qed.

(** Nor does its closing [@], as the literal after it is not [name]. *)
Lemma hole_closing_startswith (name lit rest : text) :
  at_sign ∉ name -> at_sign ∉ lit -> lit <> name ->
  rest = [] \/ (exists r, rest = at_sign :: r) ->
  startswith (hole name) (at_sign :: lit ++ rest) = false.
Proof.
  intros Hname Hlit Hne Hrest.
  destruct (startswith (hole name) (at_sign :: lit ++ rest)) eqn:E;
    [|reflexivity].
  unfold hole in E. cbn [startswith app] in E. rewrite Ascii.eqb_refl in E.
  destruct Hrest as [->|[r ->]].
  - apply startswith_prefix in E as [k Hk]. destruct Hlit.
    rewrite app_nil_r in Hk. rewrite Hk, !elem_of_app, list_elem_of_singleton.
    auto.
  - apply delimited_startswith in E; congruence.
Qed.

Lemma replace_app_free_hole (name value seg s : text) :
  at_sign ∉ seg ->
  replace (seg ++ s) (hole name) value = seg ++ replace s (hole name) value.
Proof. apply replace_app_free. Qed.

Lemma replace_hole_other (name value n lit rest : text) :
  at_sign ∉ name -> at_sign ∉ n -> n <> name ->
  at_sign ∉ lit -> lit <> name ->
  rest = [] \/ (exists r, rest = at_sign :: r) ->
  replace (hole n ++ lit ++ rest) (hole name) value =
  hole n ++ replace (lit ++ rest) (hole name) value.
Proof.
  intros Hname Hn Hne Hlit Hlne Hrest.
  unfold hole. cbn [app].
  rewrite replace_copy
    by exact (hole_other_startswith name n (lit ++ rest) Hname Hn Hne).
  f_equal. rewrite <- !app_assoc. rewrite replace_app_free by exact Hn.
  f_equal. cbn [app].
  now rewrite replace_copy
    by exact (hole_closing_startswith name lit rest Hname Hlit Hlne Hrest).
Qed.

(** One [replace] fills the holes of one name. *)
Lemma replace_render (name value : text) :
  at_sign ∉ name -> at_sign ∉ value ->
  forall hs lit0,
    at_sign ∉ lit0 ->
    Forall (fun h => (at_sign ∉ fst h) /\ (at_sign ∉ snd h) /\ snd h <> name) hs ->
    replace (lit0 ++ render_holes hs) (hole name) value =
    fst (fill_holes name value lit0 hs) ++
    render_holes (snd (fill_holes name value lit0 hs)).
Proof.
  intros Hname Hvalue hs.
  induction hs as [|[n lit] hs IH]; intros lit0 Hlit0 Hwf.
  - cbn [fill_holes render_holes fst snd]. rewrite !app_nil_r.
    apply (replace_absent _ _ _ at_sign); [apply at_sign_in_hole | exact Hlit0].
  - apply Forall_cons in Hwf as [(Hn & Hlit & Hne) Hwf]. cbn in Hn, Hlit, Hne.
    cbn [fill_holes render_holes]. destruct (decide (n = name)) as [->|Hnn].
    + rewrite <- IH; [|rewrite !elem_of_app; tauto | exact Hwf].
      rewrite (app_assoc lit0 value), <- (app_assoc (lit0 ++ value)).
      rewrite !(replace_app_free_hole name value)
        by (rewrite ?elem_of_app; tauto).
      rewrite replace_match by apply hole_nonempty.
      rewrite (replace_app_free_hole name value (lit0 ++ value))
        by (rewrite elem_of_app; tauto).
      now rewrite <- !app_assoc.
    + cbn [fst snd render_holes]. rewrite <- IH by assumption.
      rewrite !(replace_app_free_hole name value) by exact Hlit0.
      f_equal.
      apply replace_hole_other; try assumption. apply render_holes_head.
Qed.

Lemma foreign_to_spec (names : list text) (value : text) :
  foreign_to names value = true ->
  forall n a b, n ∈ names -> a ++ value ++ b <> n.
Proof.
  unfold foreign_to. rewrite forallb_forall.
  intros H n a b Hn%list_elem_of_In E.
  apply H, existsb_exists in Hn as [y [Hy Hyn]].
  apply bool_decide_eq_true in Hyn. apply Hyn.
  rewrite <- E, !elem_of_app. apply list_elem_of_In in Hy. auto.
Qed.

(** Filling keeps a template well formed. *)
Lemma fill_holes_wf (names : list text) (name value : text) :
  at_sign ∉ value ->
  foreign_to names value = true ->
  forall hs lit0,
    at_sign ∉ lit0 ->
    Forall (fun h => (at_sign ∉ fst h) /\ (at_sign ∉ snd h) /\ (snd h ∉ names)) hs ->
    (at_sign ∉ fst (fill_holes name value lit0 hs)) /\
    (lit0 ∉ names -> fst (fill_holes name value lit0 hs) ∉ names) /\
    Forall (fun h => (at_sign ∉ fst h) /\ (at_sign ∉ snd h) /\ (snd h ∉ names))
      (snd (fill_holes name value lit0 hs)).
Proof.
  intros Hvalue Hforeign hs.
  induction hs as [|[n lit] hs IH]; intros lit0 Hlit0 Hwf.
  - cbn. auto.
  - apply Forall_cons in Hwf as [(Hn & Hlit & Hnames) Hwf].
    cbn [fst snd] in Hn, Hlit, Hnames. cbn [fill_holes].
    destruct (decide (n = name)) as [->|Hne].
    + destruct (IH (lit0 ++ value ++ lit)) as (H1 & H2 & H3);
        [rewrite !elem_of_app; tauto | exact Hwf |].
      split; [exact H1|]. split; [|exact H3].
      intros _. apply H2. intros Hin.
      now apply (foreign_to_spec names value Hforeign _ lit0 lit Hin).
    + destruct (IH lit Hlit Hwf) as (H1 & H2 & H3). cbn [fst snd].
      split; [exact Hlit0|]. split; [trivial|].
      apply Forall_cons. cbn [fst snd]. auto.
Qed.

Lemma instantiate_ext (v1 v2 : text -> option text) (lead : text)
    (hs : list (text * text)) :
  (forall b, v1 b = v2 b) -> instantiate v1 lead hs = instantiate v2 lead hs.
Proof.
  intros E. unfold instantiate. f_equal.
  induction hs as [|[n lit] hs IH]; [reflexivity|].
  cbn [instantiate_holes]. now rewrite E, IH.
Qed.

Lemma render_instantiate (lead : text) (hs : list (text * text)) :
  render_template lead hs = instantiate (fun _ => None) lead hs.
Proof.
  unfold render_template, instantiate. f_equal.
  induction hs as [|[n lit] hs IH]; [reflexivity|].
  cbn [instantiate_holes render_holes]. now rewrite IH.
Qed.

(** Instantiating after a filling is instantiating with one more value. *)
Lemma instantiate_fill (value : text -> option text) (name v : text) :
  value name = None ->
  forall hs lit0,
    instantiate value (fst (fill_holes name v lit0 hs))
                      (snd (fill_holes name v lit0 hs)) =
    instantiate (fun b => if decide (b = name) then Some v else value b)
      lit0 hs.
Proof.
  intros Hnone hs. unfold instantiate.
  induction hs as [|[n lit] hs IH]; intros lit0; [reflexivity|].
  cbn [fill_holes instantiate_holes].
  destruct (decide (n = name)) as [->|Hne].
  - rewrite IH. cbn. now rewrite <- !app_assoc.
  - cbn [fst snd instantiate_holes]. now rewrite IH.
Qed.

Lemma value_of_None (values : list (text * text)) (name : text) :
  name ∉ names_of values -> value_of values name = None.
Proof.
  induction values as [|[n v] values IH]; [reflexivity|].
  unfold names_of. rewrite fmap_cons, not_elem_of_cons. cbn [fst value_of].
  intros [Hne Hnot]. destruct (decide (n = name)); [congruence|].
  now apply IH.
Qed.

Lemma instantiate_fill_all (values : list (text * text)) :
  NoDup (names_of values) ->
  forall T value,
    (forall n, n ∈ names_of values -> value n = None) ->
    instantiate value (fst (fill_all values T)) (snd (fill_all values T)) =
    instantiate
      (fun b => match value_of values b with Some v => Some v | None => value b end)
      (fst T) (snd T).
Proof.
  induction values as [|[n v] values IH]; intros Hnodup T value Hnone.
  - reflexivity.
  - unfold names_of in Hnodup, Hnone. rewrite fmap_cons in Hnodup, Hnone.
    apply NoDup_cons in Hnodup as [Hn Hnodup]. cbn [fst] in Hn, Hnone.
    unfold fill_all. cbn [fold_left fst snd].
    fold (fill_all values (fill_holes n v (fst T) (snd T))).
    rewrite IH; [| exact Hnodup | intros; apply Hnone; now right].
    rewrite instantiate_fill.
    + apply instantiate_ext. intros b. cbn [value_of].
      destruct (decide (b = n)) as [E1|E1], (decide (n = b)) as [E2|E2];
        congruence.
    + rewrite value_of_None by exact Hn. apply Hnone. now left.
Qed.

Lemma apply_fill_all (names : list text) (values : list (text * text)) :
  Forall (fun nv => fst nv ∈ names /\ (at_sign ∉ fst nv) /\ (at_sign ∉ snd nv) /\
                    foreign_to names (snd nv) = true) values ->
  forall lead hs,
    well_formed names lead hs ->
    apply_substitutions (placeholder_substitutions values)
      (render_template lead hs) =
    render_template (fst (fill_all values (lead, hs)))
                    (snd (fill_all values (lead, hs))).
Proof.
  induction 1 as [|[n v] values (Hin & Hn & Hv & Hforeign) Hvalues IH];
    intros lead hs [Hlead Hwf]; [reflexivity|].
  cbn [fst snd] in Hin, Hn, Hv, Hforeign.
  unfold placeholder_substitutions. rewrite fmap_cons.
  unfold apply_substitutions, fill_all. cbn [fold_left fst snd].
  fold (placeholder_substitutions values).
  fold (apply_substitutions (placeholder_substitutions values)).
  fold (fill_all values (fill_holes n v lead hs)).
  unfold render_template at 1. rewrite (replace_render n v Hn Hv hs lead Hlead).
  - destruct (fill_holes_wf names n v Hv Hforeign hs lead Hlead Hwf)
      as (H1 & _ & H3).
    destruct (fill_holes n v lead hs) as [lead' hs']. cbn [fst snd] in *.
    exact (IH lead' hs' (conj H1 H3)).
  - eapply Forall_impl; [exact Hwf|]. intros h (? & ? & Hh).
    repeat split; try assumption. intros E. apply Hh. now rewrite E.
Qed.

Lemma values_ok_spec (values : list (text * text)) :
  values_ok values = true ->
  NoDup (names_of values) /\
  Forall (fun nv => fst nv ∈ names_of values /\ (at_sign ∉ fst nv) /\
                    (at_sign ∉ snd nv) /\
                    foreign_to (names_of values) (snd nv) = true) values.
Proof.
  unfold values_ok. intros [Hnodup Hall]%andb_true_iff.
  apply bool_decide_eq_true in Hnodup. split; [exact Hnodup|].
  rewrite forallb_forall in Hall. apply Forall_forall. intros nv Hnv.
  pose proof (Hall nv (proj1 (list_elem_of_In _ _) Hnv)) as H.
  apply andb_true_iff in H as [[H1 H2]%andb_true_iff H3].
  repeat split; try (now apply free_of_spec); try exact H3.
  unfold names_of. now apply list_elem_of_fmap_2.
Qed.

(** The chain of replacements fills every hole that has a value. *)
Lemma substitute_template (values : list (text * text)) (lead : text)
    (hs : list (text * text)) :
  values_ok values = true ->
  well_formed (names_of values) lead hs ->
  apply_substitutions (placeholder_substitutions values)
    (render_template lead hs) =
  instantiate (value_of values) lead hs.
Proof.
  intros [Hnodup Hall]%values_ok_spec Hwf.
  rewrite (apply_fill_all _ _ Hall _ _ Hwf), render_instantiate.
  rewrite (instantiate_fill_all values Hnodup); [|reflexivity].
  apply instantiate_ext. intros b. now destruct (value_of values b).
Qed.

Lemma well_formed_check_spec (names : list text) (lead : text)
    (hs : list (text * text)) :
  well_formed_check names lead hs = true -> well_formed names lead hs.
Proof.
  unfold well_formed_check. intros [Hlead Hall]%andb_true_iff.
  split; [now apply free_of_spec|].
  rewrite forallb_forall in Hall. apply Forall_forall. intros h Hh.
  pose proof (Hall h (proj1 (list_elem_of_In _ _) Hh)) as H.
  apply andb_true_iff in H as [[H1 H2]%andb_true_iff H3].
  apply bool_decide_eq_true in H3.
  repeat split; try (now apply free_of_spec). exact H3.
Qed.




End Templates.

(** * The two pages as chains of substitutions *)

Section Pages.

Import Str.

Lemma apply_substitutions_app (s1 s2 : list (text * text)) (t : text) :
  apply_substitutions (s1 ++ s2) t =
  apply_substitutions s2 (apply_substitutions s1 t).
Proof. apply fold_left_app. Qed.

Lemma apply_substitutions_keeps (q : text) (substs : list (text * text)) :
  keeps q substs = true ->
  forall t, contains q t = false ->
            contains q (apply_substitutions substs t) = false.
Proof.
  induction substs as [|[old new] substs IH]; intros Hk t Ht; [exact Ht|].
  cbn [keeps forallb fst snd] in Hk. apply andb_true_iff in Hk as [Hq Hk].
  cbn [apply_substitutions fold_left fst snd]. apply IH; [exact Hk|].
  destruct old as [|c old]; [discriminate|].
  now apply (replace_keeps_absent at_sign).
Qed.

(** A placeholder that is substituted once, and that no later substitution
    can create, is absent from the result. *)
Lemma apply_substitutions_removes (q new : text)
    (before after : list (text * text)) (t : text) :
  inert at_sign q new = true ->
  keeps q after = true ->
  contains q (apply_substitutions (before ++ (q, new) :: after) t) = false.
Proof.
  intros Hq Hafter. rewrite apply_substitutions_app.
  cbn [apply_substitutions fold_left fst snd].
  apply (apply_substitutions_keeps q after Hafter).
  apply (replace_removes at_sign q q new); [|exact Hq | reflexivity].
  intros ->. discriminate.
Qed.

(** Substitutions whose placeholders do not occur change nothing. *)
Lemma apply_substitutions_id (substs : list (text * text)) (t : text) :
  Forall (fun kv => fst kv <> [] /\ contains (fst kv) t = false) substs ->
  apply_substitutions substs t = t.
Proof.
  induction 1 as [|[old new] substs [Hne Hc] _ IH]; [reflexivity|].
  cbn [apply_substitutions fold_left fst snd] in *.
  now rewrite replace_id.
Qed.

Lemma jbr_filename_substitutions :
  filename_substitutions Jbr.descrs JBR_BUILD =
  [(txt "@FILENAME-win@", JBR_BUILD ++ txt "_x64.zip");
   (txt "@FILENAME-mac@", JBR_BUILD ++ txt ".dmg");
   (txt "@FILENAME-linux@", JBR_BUILD ++ txt ".tar.gz")].
Proof. vm_compute. reflexivity. Qed.

Lemma jbr_content_substitutions (t : text) :
  Jbr.content t = apply_substitutions (placeholder_substitutions jbr_values) t.
Proof.
  unfold Jbr.content, Jbr.render. rewrite filename_loop_first_wins.
  rewrite jbr_filename_substitutions. reflexivity.
Qed.

Lemma span_content_substitutions (t : text) :
  Span.content t = apply_substitutions (placeholder_substitutions span_values) t.
Proof. reflexivity. Qed.



(** Text without [@] is left alone by every placeholder substitution. *)
Lemma apply_substitutions_free (values : list (text * text)) (t : text) :
  at_sign ∉ t ->
  apply_substitutions (placeholder_substitutions values) t = t.
Proof.
  intros Ht. apply apply_substitutions_id.
  unfold placeholder_substitutions. apply Forall_fmap, Forall_forall.
  intros [n v] _. cbn [fst snd compose]. split; [apply hole_nonempty|].
  apply (contains_absent _ _ at_sign); [apply at_sign_in_hole | exact Ht].
Qed.

(** A template whose only [@] signs are those of one placeholder, which is
    substituted first. *)
Lemma apply_substitutions_single (name v : text) (rest : list (text * text))
    (pre post : text) :
  at_sign ∉ pre -> at_sign ∉ post -> at_sign ∉ v ->
  apply_substitutions (placeholder_substitutions ((name, v) :: rest))
    (pre ++ hole name ++ post) =
  pre ++ v ++ post.
Proof.
  intros Hpre Hpost Hv. unfold placeholder_substitutions. rewrite fmap_cons.
  cbn [apply_substitutions fold_left fst snd].
  rewrite replace_app_free_hole by exact Hpre.
  rewrite replace_match by apply hole_nonempty.
  rewrite (replace_absent post _ _ at_sign)
    by (apply at_sign_in_hole || exact Hpost).
  apply apply_substitutions_free. rewrite !elem_of_app. tauto.
Qed.

(** None of the placeholders a page substitutes is left in it. *)
Lemma jbr_content_absent (t : text) :
  Forall (fun kv => fst kv <> [] /\ contains (fst kv) (Jbr.content t) = false)
    (placeholder_substitutions jbr_values).
Proof.
  rewrite jbr_content_substitutions.
  repeat (apply Forall_cons; split; [split; [discriminate|]|]);
    [ | | | | | | apply Forall_nil_2].
  - now apply (apply_substitutions_removes _ _ []).
  - now apply (apply_substitutions_removes _ _ [_]).
  - now apply (apply_substitutions_removes _ _ [_; _]).
  - now apply (apply_substitutions_removes _ _ [_; _; _]).
  - now apply (apply_substitutions_removes _ _ [_; _; _; _]).
  - now apply (apply_substitutions_removes _ _ [_; _; _; _; _]).
Qed.

Lemma span_content_absent (t : text) :
  Forall (fun kv => fst kv <> [] /\ contains (fst kv) (Span.content t) = false)
    (placeholder_substitutions span_values).
Proof.
  rewrite span_content_substitutions.
  repeat (apply Forall_cons; split; [split; [discriminate|]|]);
    [ | | | apply Forall_nil_2].
  - now apply (apply_substitutions_removes _ _ []).
  - now apply (apply_substitutions_removes _ _ [_]).
  - now apply (apply_substitutions_removes _ _ [_; _]).
Qed.

(** The same two facts for values that are not known in advance. *)
Lemma replace_keeps_hole_absent (name old new s : text) (y : ascii) :
  old <> [] -> at_sign ∉ name -> at_sign ∉ new ->
  y ∈ new -> y ∉ hole name ->
  contains (hole name) s = false ->
  contains (hole name) (replace s old new) = false.
Proof.
  intros Hold Hname Hnew Hy Hyq Hs. unfold hole in *.
  apply not_elem_of_cons in Hyq as [Hyc Hyw]. rewrite elem_of_app in Hyw.
  destruct (contains (at_sign :: name ++ [at_sign]) (replace s old new)) eqn:E;
    [|reflexivity].
  apply (contains_through_replace at_sign old new Hold Hnew y Hy Hyc) in E
    as [E _]; [congruence | exact Hname | tauto].
Qed.

Lemma replace_removes_hole (name new s : text) (y : ascii) :
  at_sign ∉ name -> at_sign ∉ new ->
  y ∈ new -> y ∉ hole name ->
  contains (hole name) (replace s (hole name) new) = false.
Proof.
  intros Hname Hnew Hy Hyq.
  apply not_elem_of_cons in Hyq as [Hyc Hyw]. rewrite elem_of_app in Hyw.
  destruct (contains (hole name) (replace s (hole name) new)) eqn:E;
    [|reflexivity].
  apply (contains_through_replace at_sign (hole name) new (hole_nonempty name)
           Hnew y Hy Hyc) in E as [_ E]; [| exact Hname | tauto].
  now destruct E.
Qed.

Lemma apply_substitutions_keeps_hole (name : text)
    (substs : list (text * text)) :
  at_sign ∉ name ->
  Forall (fun kv => fst kv <> [] /\ (at_sign ∉ snd kv) /\
                    exists y, y ∈ snd kv /\ (y ∉ hole name)) substs ->
  forall t, contains (hole name) t = false ->
            contains (hole name) (apply_substitutions substs t) = false.
Proof.
  intros Hname. induction 1 as [|[old new] substs (Hold & Hnew & y & Hy & Hyq) _ IH];
    intros t Ht; [exact Ht|].
  cbn [apply_substitutions fold_left fst snd] in *. apply IH.
  now apply (replace_keeps_hole_absent name old new t y).
Qed.

Lemma apply_substitutions_removes_hole (name new : text) (y : ascii)
    (before after : list (text * text)) (t : text) :
  at_sign ∉ name -> at_sign ∉ new -> y ∈ new -> y ∉ hole name ->
  Forall (fun kv => fst kv <> [] /\ (at_sign ∉ snd kv) /\
                    exists y, y ∈ snd kv /\ (y ∉ hole name)) after ->
  contains (hole name)
    (apply_substitutions (before ++ (hole name, new) :: after) t) = false.
Proof.
  intros Hname Hnew Hy Hyq Hafter. rewrite apply_substitutions_app.
  cbn [apply_substitutions fold_left fst snd].
  apply (apply_substitutions_keeps_hole name after Hname Hafter).
  now apply (replace_removes_hole name new _ y).
Qed.

(** The rows are free of [@] whenever the build identifier is. *)
Lemma span_row_free (build : text) :
  at_sign ∉ build -> at_sign ∉ Span.create_tr build.
Proof.
  intros Hbuild. unfold Span.create_tr. cbn zeta.
  rewrite !not_elem_of_app.
  repeat split; try exact Hbuild; now apply free_of_spec.
Qed.

Lemma jbr_row_free (dd : DistrDescriptor) (build : text) :
  at_sign ∉ build -> at_sign ∉ title dd -> at_sign ∉ suffix dd ->
  at_sign ∉ folder dd ->
  at_sign ∉ Jbr.create_tr dd build.
Proof.
  intros Hbuild Htitle Hsuffix Hfolder.
  unfold Jbr.create_tr, Jbr.tr_url, Jbr.tr_fname, Jbr.code_base. cbn zeta.
  rewrite !not_elem_of_app.
  repeat split; try assumption; now apply free_of_spec.
Qed.

Lemma jbr_table_free (build : text) :
  at_sign ∉ build -> at_sign ∉ Jbr.table Jbr.descrs build.
Proof.
  intros Hbuild. unfold Jbr.table, Jbr.rows, Jbr.descrs. cbn [map join].
  rewrite !not_elem_of_app.
  repeat split; try (now apply free_of_spec);
    apply jbr_row_free; try exact Hbuild; now apply free_of_spec.
Qed.

(** ** Passes *)

Lemma substituted_apply (substs : list (text * text)) :
  Forall (fun kv => fst kv <> []) substs ->
  forall t, substituted substs t (apply_substitutions substs t).
Proof.
  induction 1 as [|[old new] substs Hold _ IH]; intros t; [constructor|].
  cbn [fst] in Hold.
  destruct (scanned_exists old t Hold) as [gaps Hgaps].
  apply (substituted_pass old new substs t gaps); [exact Hgaps|].
  cbn [apply_substitutions fold_left fst snd].
  rewrite (replace_of_scanned old new t gaps Hold Hgaps). apply IH.
Qed.

Lemma substituted_unique (substs : list (text * text)) (t out : text) :
  Forall (fun kv => fst kv <> []) substs ->
  substituted substs t out -> out = apply_substitutions substs t.
Proof.
  intros Hne Hsub. induction Hsub as [t|old new rest t gaps out Hgaps _ IH];
    [reflexivity|].
  apply Forall_cons in Hne as [Hold Hne]. cbn [fst] in Hold.
  cbn [apply_substitutions fold_left fst snd].
  rewrite (replace_of_scanned old new t gaps Hold Hgaps). now apply IH.
Qed.

(** Placeholder substitutions work gap by gap on a text joined by a
    separator that is free of [@] and starts with a character foreign to
    the placeholders. *)
Lemma apply_substitutions_join_sep (values : list (text * text))
    (x : ascii) (sep : text) :
  head sep = Some x ->
  at_sign ∉ sep ->
  Forall (fun nv => x ∉ hole (fst nv)) values ->
  forall gaps,
    apply_substitutions (placeholder_substitutions values) (join sep gaps) =
    join sep (map (apply_substitutions (placeholder_substitutions values)) gaps).
Proof.
  intros Hhead Hsep. destruct sep as [|x' sep]; [discriminate|].
  injection Hhead as ->.
  induction 1 as [|[n v] values Hx _ IH]; intros gaps.
  - cbn. now rewrite map_id.
  - unfold placeholder_substitutions. rewrite fmap_cons.
    fold (placeholder_substitutions values).
    cbn [apply_substitutions fold_left fst snd].
    fold (apply_substitutions (placeholder_substitutions values)
            (replace (join (x :: sep) gaps) (hole n) v)).
    unfold hole at 1. rewrite replace_join_sep by assumption.
    fold (hole n). rewrite IH, map_map. reflexivity.
Qed.

End Pages.

(** * The claims of the specification *)

Section Substitution.

Import Str.

(** C1, as the specification words it, fails in its second half.  The
    template [@BUILD@TABLE@DATE@] contains each of the three placeholders.
    The first pass replaces [@TABLE@] and takes the [@] signs that [@BUILD@]
    and [@DATE@] share with it: what is left of them, [@BUILD] and [DATE@],
    stays in the page, and the release date occurs nowhere in the output. *)
Lemma C1_counterexample :
  contains TABLE overlapping_template = true /\
  contains BUILD overlapping_template = true /\
  contains DATE overlapping_template = true /\
  Span.content overlapping_template =
    txt "@BUILD" ++ Span.create_tr SPAN_BUILD ++ txt "DATE@" /\
  contains SPAN_DATE (Span.content overlapping_template) = false /\
  Jbr.content overlapping_template =
    txt "@BUILD" ++ Jbr.table Jbr.descrs JBR_BUILD ++ txt "DATE@" /\
  contains JBR_DATE (Jbr.content overlapping_template) = false.
Proof. repeat split; vm_compute; reflexivity. Qed.

(** C1, amended.  For every template text in which [@TABLE@], [@BUILD@] and
    [@DATE@] each occur at least once, the text produced by the JBR
    generator and the text produced by the SPAN generator contain no
    occurrence of [@TABLE@], [@BUILD@] or [@DATE@].  The output is the
    result, and the only result, of replace-all passes in the order
    [@TABLE@], [@BUILD@], [@DATE@] (followed on the JBR page by
    [@FILENAME-win@], [@FILENAME-mac@], [@FILENAME-linux@]): each pass puts
    its value (the rows, the build identifier, the release date) in the
    place of every occurrence that a left-to-right scan without overlap
    finds in the text that the pass before it left, not just of the first.
    An occurrence that shares an [@] with an earlier match is consumed with
    it.  In a template whose [@] signs only delimit placeholders (and in
    which no literal between two placeholders is a placeholder name) these
    are all occurrences: every [@BUILD@] is replaced by the build
    identifier and every [@DATE@] by the release date. *)
Theorem C1_full_substitution (t : text) :
  contains TABLE t = true ->
  contains BUILD t = true ->
  contains DATE t = true ->
  (contains TABLE (Jbr.content t) = false /\
   contains BUILD (Jbr.content t) = false /\
   contains DATE (Jbr.content t) = false) /\
  (contains TABLE (Span.content t) = false /\
   contains BUILD (Span.content t) = false /\
   contains DATE (Span.content t) = false) /\
  (forall out,
      substituted
        [(TABLE, Jbr.table Jbr.descrs JBR_BUILD);
         (BUILD, JBR_BUILD);
         (DATE, JBR_DATE);
         (txt "@FILENAME-win@", JBR_BUILD ++ txt "_x64.zip");
         (txt "@FILENAME-mac@", JBR_BUILD ++ txt ".dmg");
         (txt "@FILENAME-linux@", JBR_BUILD ++ txt ".tar.gz")] t out <->
      out = Jbr.content t) /\
  (forall out,
      substituted
        [(TABLE, Span.create_tr SPAN_BUILD);
         (BUILD, SPAN_BUILD);
         (DATE, SPAN_DATE)] t out <->
      out = Span.content t) /\
  (forall lead hs,
      t = render_template lead hs ->
      well_formed (names_of jbr_values) lead hs ->
      Jbr.content t = instantiate (value_of jbr_values) lead hs) /\
  (forall lead hs,
      t = render_template lead hs ->
      well_formed (names_of span_values) lead hs ->
      Span.content t = instantiate (value_of span_values) lead hs).
Proof.
  intros _ _ _.
  rewrite jbr_content_substitutions, span_content_substitutions.
  assert (Hjbr : Forall (fun kv : text * text => fst kv <> [])
                   (placeholder_substitutions jbr_values))
    by (repeat (apply Forall_cons; split; [discriminate|]); apply Forall_nil_2).
  assert (Hspan : Forall (fun kv : text * text => fst kv <> [])
                    (placeholder_substitutions span_values))
    by (repeat (apply Forall_cons; split; [discriminate|]); apply Forall_nil_2).
  split; [|split; [|split; [|split; [|split]]]].
  - repeat split.
    + now apply (apply_substitutions_removes TABLE _ []).
    + now apply (apply_substitutions_removes BUILD _ [_]).
    + now apply (apply_substitutions_removes DATE _ [_; _]).
  - repeat split.
    + now apply (apply_substitutions_removes TABLE _ []).
    + now apply (apply_substitutions_removes BUILD _ [_]).
    + now apply (apply_substitutions_removes DATE _ [_; _]).
  - intros out. split.
    + exact (substituted_unique _ t out Hjbr).
    + intros ->. exact (substituted_apply _ Hjbr t).
  - intros out. split.
    + exact (substituted_unique _ t out Hspan).
    + intros ->. exact (substituted_apply _ Hspan t).
  - intros lead hs -> Hwf. now apply substitute_template.
  - intros lead hs -> Hwf. now apply substitute_template.
Qed.

Lemma C1_witness :
  contains TABLE sample_template = true /\
  contains BUILD sample_template = true /\
  contains DATE sample_template = true /\
  contains TABLE (Jbr.content sample_template) = false /\
  contains BUILD (Span.content sample_template) = false /\
  Jbr.content sample_template =
    txt "<h1>" ++ JBR_BUILD ++ txt " (" ++ JBR_DATE ++ txt ")</h1><table>" ++
    Jbr.table Jbr.descrs JBR_BUILD ++
    txt "</table><a>1.0.beta.4882_x64.zip</a><a>1.0.beta.4882.dmg</a>" ++
    txt "<a>1.0.beta.4882.tar.gz</a><p>" ++
    JBR_BUILD ++ txt ", " ++ JBR_DATE ++ txt "</p>".
Proof.
  assert (H1 : contains TABLE sample_template = true) by reflexivity.
  assert (H2 : contains BUILD sample_template = true) by reflexivity.
  assert (H3 : contains DATE sample_template = true) by reflexivity.
  destruct (C1_full_substitution sample_template H1 H2 H3)
    as ((J & _) & (_ & S & _) & _ & _ & Jt & _).
  split; [exact H1|]. split; [exact H2|]. split; [exact H3|].
  split; [exact J|]. split; [exact S|].
  rewrite (Jt sample_lead sample_holes eq_refl).
  - vm_compute. reflexivity.
  - apply well_formed_check_spec. vm_compute. reflexivity.
Defined.

End Substitution.

Section Jbr_page.

Import Str Jbr.

(** C2.  The loop over the descriptors substitutes, in list order, the
    placeholder [@FILENAME-<folder>@] of every distinct folder key exactly
    once, with [<build><suffix>] of the first descriptor having that folder.
    For the descriptors of the script these are [@FILENAME-win@] with
    [<build>_x64.zip], [@FILENAME-mac@] and [@FILENAME-linux@]; the suffix
    [_x86.zip] of the second Windows descriptor is used for no filename
    placeholder. *)
Theorem C2_first_descriptor_wins :
  (forall ds build content,
      snd (filename_loop ds build content) =
      apply_substitutions (filename_substitutions ds build) content) /\
  (forall ds build, NoDup (fst <$> filename_substitutions ds build)) /\
  (forall ds build d,
      d ∈ ds ->
      exists d0,
        head (filter (fun x => folder x = folder d) ds) = Some d0 /\
        forall v,
          (filename_key d, v) ∈ filename_substitutions ds build <->
          v = build ++ suffix d0) /\
  filename_substitutions descrs JBR_BUILD =
    [(txt "@FILENAME-win@", JBR_BUILD ++ txt "_x64.zip");
     (txt "@FILENAME-mac@", JBR_BUILD ++ txt ".dmg");
     (txt "@FILENAME-linux@", JBR_BUILD ++ txt ".tar.gz")] /\
  (forall kv,
      kv ∈ filename_substitutions descrs JBR_BUILD ->
      snd kv <> JBR_BUILD ++ txt "_x86.zip") /\
  Jbr.content (txt "<a>@FILENAME-win@</a>") =
    txt "<a>1.0.beta.4882_x64.zip</a>".
Proof.
  split; [exact (fun ds build content =>
                   filename_loop_first_wins build ds content)|].
  split.
  { intros ds build. unfold filename_substitutions.
    rewrite <- list_fmap_compose.
    pose proof (first_per_folder_NoDup ds) as Hnd.
    revert Hnd. generalize (first_per_folder ds). intros l.
    induction l as [|x l IH]; [constructor|].
    rewrite !fmap_cons, !NoDup_cons. intros [Hx Hl]. split; [|now apply IH].
    intros [x' [E Hx']]%list_elem_of_fmap. apply Hx.
    cbn in E. apply filename_key_inj in E. rewrite E.
    now apply list_elem_of_fmap_2. }
  split.
  { intros ds build d Hd.
    destruct (head (filter (fun x => folder x = folder d) ds)) as [d0|] eqn:Hhead.
    2:{ apply head_None in Hhead.
        assert (Hin : d ∈ filter (fun x => folder x = folder d) ds)
          by now apply list_elem_of_filter.
        rewrite Hhead in Hin. now apply elem_of_nil in Hin. }
    exists d0. split; [reflexivity|].
    assert (Hfolder : folder d0 = folder d).
    { apply head_Some_elem_of, list_elem_of_filter in Hhead. tauto. }
    intros v. unfold filename_substitutions. rewrite list_elem_of_fmap. split.
    - intros [d1 [E Hd1]].
      pose proof (f_equal fst E) as Hkey. pose proof (f_equal snd E) as Hv.
      cbn [fst snd] in Hkey, Hv. apply filename_key_inj in Hkey.
      apply first_per_folder_head in Hd1. rewrite <- Hkey in Hd1.
      rewrite Hhead in Hd1. injection Hd1 as <-. exact Hv.
    - intros ->. exists d0. split.
      + f_equal. now apply filename_key_inj.
      + apply first_per_folder_head. now rewrite Hfolder. }
  split; [exact jbr_filename_substitutions|].
  split.
  { rewrite jbr_filename_substitutions. intros kv Hkv.
    repeat (apply elem_of_cons in Hkv as [->|Hkv]; [discriminate|]).
    now apply elem_of_nil in Hkv. }
  vm_compute. reflexivity.
Qed.

Lemma C2_witness :
  win32 ∈ descrs /\
  forall v,
    (txt "@FILENAME-win@", v) ∈ filename_substitutions descrs JBR_BUILD <->
    v = JBR_BUILD ++ txt "_x64.zip".
Proof.
  assert (Hin : win32 ∈ descrs) by (right; left).
  split; [exact Hin|].
  destruct C2_first_descriptor_wins as (_ & _ & Hfirst & _).
  destruct (Hfirst descrs JBR_BUILD win32 Hin) as [d0 [Hhead Hv]].
  assert (E : head (filter (fun x => folder x = folder win32) descrs) =
              Some win64) by reflexivity.
  rewrite E in Hhead. injection Hhead as <-. exact Hv.
Defined.

(** C3.  With [JBR_BUILD = "1.0.beta.4882"], the row generated for the
    Windows 64-bit descriptor (the first row of the JBR table) contains a
    link whose href is
    [https://download.jetbrains.com/biolabs/jbr_browser/win/jbr-1.0.beta.4882_x64.zip]
    and whose text is [jbr-1.0.beta.4882_x64.zip]; for every descriptor and
    build the URL is the fixed base, the descriptor's folder and the file
    name [jbr-<build><suffix>], joined by [/]. *)
Theorem C3_win64_row :
  JBR_BUILD = txt "1.0.beta.4882" /\
  (forall dd build,
      create_tr dd build =
      nl ++ spaces 8 ++ txt "<tr>" ++
      nl ++ spaces 12 ++ txt "<td> " ++
        (txt "<a href=" ++ dquote ++
           (txt "https://download.jetbrains.com/biolabs/jbr_browser" ++
            txt "/" ++ folder dd ++ txt "/" ++ txt "jbr-" ++ build ++ suffix dd) ++
         dquote ++ txt ">" ++ (txt "jbr-" ++ build ++ suffix dd) ++ txt "</a>") ++
        txt "</td>" ++
      nl ++ spaces 12 ++ txt "<td>" ++ title dd ++ txt "</td>" ++
      nl ++ spaces 8 ++ txt "</tr>" ++
      nl ++ spaces 8) /\
  create_tr win64 JBR_BUILD =
    nl ++ spaces 8 ++ txt "<tr>" ++
    nl ++ spaces 12 ++ txt "<td> " ++
      (txt "<a href=" ++ dquote ++
       txt "https://download.jetbrains.com/biolabs/jbr_browser/win/jbr-1.0.beta.4882_x64.zip" ++
       dquote ++ txt ">" ++ txt "jbr-1.0.beta.4882_x64.zip" ++ txt "</a>") ++
      txt "</td>" ++
    nl ++ spaces 12 ++
      txt "<td>Windows 64-bit ZIP archive (includes bundled 64-bit Java Runtime)</td>" ++
    nl ++ spaces 8 ++ txt "</tr>" ++
    nl ++ spaces 8 /\
  rows descrs JBR_BUILD !! 0 = Some (create_tr win64 JBR_BUILD) /\
  contains
    (txt "<a href=" ++ dquote ++
     txt "https://download.jetbrains.com/biolabs/jbr_browser/win/jbr-1.0.beta.4882_x64.zip" ++
     dquote ++ txt ">" ++ txt "jbr-1.0.beta.4882_x64.zip" ++ txt "</a>")
    (Jbr.content (txt "<table>@TABLE@</table>")) = true.
Proof.
  split; [reflexivity|]. split.
  { intros dd build. unfold create_tr, tr_url, tr_fname, code_base.
    cbn zeta. rewrite <- !app_assoc. reflexivity. }
  split; [reflexivity|]. split; [reflexivity|].
  vm_compute. reflexivity.
Qed.

(** C5.  The JBR generator builds one row per descriptor, four in all, in
    the order of the descriptor list (Windows 64-bit, Windows 32-bit, Mac,
    Linux), joins them in that order (with a newline between two rows) and
    substitutes the result for [@TABLE@].  This holds of every template:
    where the scan finds [@TABLE@] the page has the four rows, untouched by
    the later substitutions, which work on the text between the tables. *)
Theorem C5_jbr_table :
  (forall t,
      (exists gaps, scanned TABLE t gaps) /\
      forall gaps,
        scanned TABLE t gaps ->
        Jbr.content t =
        join (table descrs JBR_BUILD)
          (map (apply_substitutions
                  [(BUILD, JBR_BUILD);
                   (DATE, JBR_DATE);
                   (txt "@FILENAME-win@", JBR_BUILD ++ txt "_x64.zip");
                   (txt "@FILENAME-mac@", JBR_BUILD ++ txt ".dmg");
                   (txt "@FILENAME-linux@", JBR_BUILD ++ txt ".tar.gz")])
             gaps)) /\
  (forall lead hs,
      well_formed (names_of jbr_values) lead hs ->
      Jbr.content (render_template lead hs) =
      instantiate (value_of jbr_values) lead hs) /\
  value_of jbr_values (txt "TABLE") = Some (table descrs JBR_BUILD) /\
  (forall pre post,
      at_sign ∉ pre -> at_sign ∉ post ->
      Jbr.content (pre ++ TABLE ++ post) =
      pre ++ table descrs JBR_BUILD ++ post) /\
  (forall ds build,
      length (rows ds build) = length ds /\
      forall i d, ds !! i = Some d -> rows ds build !! i = Some (create_tr d build)) /\
  rows descrs JBR_BUILD =
    [create_tr win64 JBR_BUILD; create_tr win32 JBR_BUILD;
     create_tr mac JBR_BUILD; create_tr linux JBR_BUILD] /\
  length (rows descrs JBR_BUILD) = 4 /\
  table descrs JBR_BUILD =
    create_tr win64 JBR_BUILD ++ nl ++ create_tr win32 JBR_BUILD ++ nl ++
    create_tr mac JBR_BUILD ++ nl ++ create_tr linux JBR_BUILD /\
  (contains (txt "<td>Windows 64-bit ZIP archive") (create_tr win64 JBR_BUILD) = true /\
   contains (txt "<td>Windows 32-bit ZIP archive") (create_tr win32 JBR_BUILD) = true /\
   contains (txt "<td>Mac installer") (create_tr mac JBR_BUILD) = true /\
   contains (txt "<td>Linux archive") (create_tr linux JBR_BUILD) = true).
Proof.
  split.
  { intros t. split; [now apply scanned_exists|]. intros gaps Hgaps.
    rewrite jbr_content_substitutions.
    change (apply_substitutions (placeholder_substitutions jbr_values) t)
      with (apply_substitutions (placeholder_substitutions (tail jbr_values))
              (replace t TABLE (table descrs JBR_BUILD))).
    rewrite (replace_of_scanned TABLE _ t gaps) by (discriminate || exact Hgaps).
    apply (apply_substitutions_join_sep (tail jbr_values) "010"%char);
      [reflexivity | now apply free_of_spec |].
    repeat (apply Forall_cons; split; [now apply free_of_spec|]).
    apply Forall_nil_2. }
  split.
  { intros lead hs Hwf. rewrite jbr_content_substitutions.
    now apply substitute_template. }
  split; [reflexivity|].
  split.
  { intros pre post Hpre Hpost. rewrite jbr_content_substitutions.
    apply (apply_substitutions_single (txt "TABLE")); try assumption.
    apply free_of_spec. vm_compute. reflexivity. }
  split.
  { intros ds build. unfold rows. split; [apply length_map|].
    intros i d Hd. change (map ?f ds) with (f <$> ds).
    now rewrite list_lookup_fmap, Hd. }
  repeat split; vm_compute; reflexivity.
Qed.

Lemma C5_witness :
  (at_sign ∉ txt "<table>") /\ (at_sign ∉ txt "</table>") /\
  Jbr.content (txt "<table>@TABLE@</table>") =
    txt "<table>" ++ table descrs JBR_BUILD ++ txt "</table>" /\
  well_formed (names_of jbr_values) sample_lead sample_holes /\
  Jbr.content sample_template =
    instantiate (value_of jbr_values) sample_lead sample_holes /\
  scanned TABLE
    (txt "a@b " ++ TABLE ++ txt "@BUILD@" ++ TABLE ++ txt "@FILENAME-mac@")
    [txt "a@b "; txt "@BUILD@"; txt "@FILENAME-mac@"] /\
  Jbr.content
    (txt "a@b " ++ TABLE ++ txt "@BUILD@" ++ TABLE ++ txt "@FILENAME-mac@") =
    txt "a@b " ++ table descrs JBR_BUILD ++ JBR_BUILD ++
    table descrs JBR_BUILD ++ JBR_BUILD ++ txt ".dmg".
Proof.
  assert (H1 : at_sign ∉ txt "<table>") by (now apply free_of_spec).
  assert (H2 : at_sign ∉ txt "</table>") by (now apply free_of_spec).
  assert (Hwf : well_formed (names_of jbr_values) sample_lead sample_holes)
    by (apply well_formed_check_spec; vm_compute; reflexivity).
  assert (Hscan : scanned TABLE
            (txt "a@b " ++ TABLE ++ txt "@BUILD@" ++ TABLE ++ txt "@FILENAME-mac@")
            [txt "a@b "; txt "@BUILD@"; txt "@FILENAME-mac@"]).
  { apply scanned_cut; [reflexivity|]. apply scanned_cut; [reflexivity|].
    apply scanned_last. reflexivity. }
  destruct C5_jbr_table as (Hevery & Hinst & _ & Hsingle & _).
  split; [exact H1|]. split; [exact H2|].
  split; [exact (Hsingle (txt "<table>") (txt "</table>") H1 H2)|].
  split; [exact Hwf|]. split; [exact (Hinst sample_lead sample_holes Hwf)|].
  split; [exact Hscan|].
  rewrite (proj2 (Hevery _) _ Hscan). vm_compute. reflexivity.
Defined.

End Jbr_page.

Section Span_page.

Import Str.

(** C4.  The SPAN generator substitutes [@TABLE@] with exactly one row.  The
    link of the row has the href
    [https://download.jetbrains.com/biolabs/span/span-<SPAN_BUILD>.jar] and the
    file name [span-<SPAN_BUILD>.jar] as its text; with
    [SPAN_BUILD = "0.11.0.4882"] the href is
    [https://download.jetbrains.com/biolabs/span/span-0.11.0.4882.jar].  The
    second cell reads [Multi-platform JAR package].  This holds of every
    template: where the scan finds [@TABLE@] the page has the one row,
    untouched by the substitutions of [@BUILD@] and [@DATE@], which work on
    the text between the rows. *)
Theorem C4_span_single_row :
  (forall t,
      (exists gaps, scanned TABLE t gaps) /\
      forall gaps,
        scanned TABLE t gaps ->
        Span.content t =
        join (Span.create_tr SPAN_BUILD)
          (map (fun gap => replace (replace gap BUILD SPAN_BUILD) DATE SPAN_DATE)
             gaps)) /\
  (forall lead hs,
      well_formed (names_of span_values) lead hs ->
      Span.content (render_template lead hs) =
      instantiate (value_of span_values) lead hs) /\
  value_of span_values (txt "TABLE") = Some (Span.create_tr SPAN_BUILD) /\
  (forall pre post,
      at_sign ∉ pre -> at_sign ∉ post ->
      Span.content (pre ++ TABLE ++ post) =
      pre ++ Span.create_tr SPAN_BUILD ++ post) /\
  (forall build,
      Span.create_tr build =
      nl ++ spaces 8 ++ txt "<tr>" ++
      nl ++ spaces 12 ++ txt "<td> " ++
        (txt "<a href=" ++ dquote ++
           (txt "https://download.jetbrains.com/biolabs/span/" ++
            txt "span-" ++ build ++ txt ".jar") ++
         dquote ++ txt ">" ++ (txt "span-" ++ build ++ txt ".jar") ++
         txt "</a>") ++
        txt "</td>" ++
      nl ++ spaces 12 ++ txt "<td> Multi-platform JAR package </td>" ++
      nl ++ spaces 8 ++ txt "</tr>" ++
      nl ++ spaces 8) /\
  SPAN_BUILD = txt "0.11.0.4882" /\
  Span.create_tr SPAN_BUILD =
    nl ++ spaces 8 ++ txt "<tr>" ++
    nl ++ spaces 12 ++ txt "<td> " ++
      (txt "<a href=" ++ dquote ++
       txt "https://download.jetbrains.com/biolabs/span/span-0.11.0.4882.jar" ++
       dquote ++ txt ">" ++ txt "span-0.11.0.4882.jar" ++ txt "</a>") ++
      txt "</td>" ++
    nl ++ spaces 12 ++ txt "<td> Multi-platform JAR package </td>" ++
    nl ++ spaces 8 ++ txt "</tr>" ++
    nl ++ spaces 8.
Proof.
  split.
  { intros t. split; [now apply scanned_exists|]. intros gaps Hgaps.
    rewrite span_content_substitutions.
    change (apply_substitutions (placeholder_substitutions span_values) t)
      with (apply_substitutions (placeholder_substitutions (tail span_values))
              (replace t TABLE (Span.create_tr SPAN_BUILD))).
    rewrite (replace_of_scanned TABLE _ t gaps) by (discriminate || exact Hgaps).
    apply (apply_substitutions_join_sep (tail span_values) "010"%char);
      [reflexivity | now apply free_of_spec |].
    repeat (apply Forall_cons; split; [now apply free_of_spec|]).
    apply Forall_nil_2. }
  split.
  { intros lead hs Hwf. rewrite span_content_substitutions.
    now apply substitute_template. }
  split; [reflexivity|].
  split.
  { intros pre post Hpre Hpost. rewrite span_content_substitutions.
    apply (apply_substitutions_single (txt "TABLE")); try assumption.
    apply free_of_spec. vm_compute. reflexivity. }
  split.
  { intros build. unfold Span.create_tr. cbn zeta.
    rewrite <- !app_assoc. reflexivity. }
  split; reflexivity.
Qed.

Lemma C4_witness :
  (at_sign ∉ txt "<table>") /\ (at_sign ∉ txt "</table>") /\
  Span.content (txt "<table>@TABLE@</table>") =
    txt "<table>" ++ Span.create_tr SPAN_BUILD ++ txt "</table>" /\
  well_formed (names_of span_values)
    (txt "<h1>") [(txt "BUILD", txt " ("); (txt "DATE", txt ")</h1>");
                  (txt "TABLE", txt "<p>"); (txt "DATE", txt "</p>")] /\
  Span.content (txt "<h1>@BUILD@ (@DATE@)</h1>@TABLE@<p>@DATE@</p>") =
    txt "<h1>" ++ SPAN_BUILD ++ txt " (" ++ SPAN_DATE ++ txt ")</h1>" ++
    Span.create_tr SPAN_BUILD ++ txt "<p>" ++ SPAN_DATE ++ txt "</p>" /\
  scanned TABLE (txt "a@b @BUILD@" ++ TABLE ++ txt "@DATE@")
    [txt "a@b @BUILD@"; txt "@DATE@"] /\
  Span.content (txt "a@b @BUILD@" ++ TABLE ++ txt "@DATE@") =
    txt "a@b " ++ SPAN_BUILD ++ Span.create_tr SPAN_BUILD ++ SPAN_DATE.
Proof.
  assert (H1 : at_sign ∉ txt "<table>") by (now apply free_of_spec).
  assert (H2 : at_sign ∉ txt "</table>") by (now apply free_of_spec).
  assert (Hwf : well_formed (names_of span_values)
                  (txt "<h1>") [(txt "BUILD", txt " ("); (txt "DATE", txt ")</h1>");
                                (txt "TABLE", txt "<p>"); (txt "DATE", txt "</p>")])
    by (apply well_formed_check_spec; vm_compute; reflexivity).
  assert (Hscan : scanned TABLE (txt "a@b @BUILD@" ++ TABLE ++ txt "@DATE@")
                    [txt "a@b @BUILD@"; txt "@DATE@"]).
  { apply scanned_cut; [reflexivity|]. apply scanned_last. reflexivity. }
  destruct C4_span_single_row as (Hevery & Hinst & _ & Hsingle & _).
  split; [exact H1|]. split; [exact H2|].
  split; [exact (Hsingle (txt "<table>") (txt "</table>") H1 H2)|].
  split; [exact Hwf|].
  split.
  { change (txt "<h1>@BUILD@ (@DATE@)</h1>@TABLE@<p>@DATE@</p>")
      with (render_template (txt "<h1>")
              [(txt "BUILD", txt " ("); (txt "DATE", txt ")</h1>");
               (txt "TABLE", txt "<p>"); (txt "DATE", txt "</p>")]).
    rewrite (Hinst _ _ Hwf). vm_compute. reflexivity. }
  split; [exact Hscan|].
  rewrite (proj2 (Hevery _) _ Hscan). vm_compute. reflexivity.
Defined.

End Span_page.

Section Entry_point.

(** C6.  When [OUT_FOLDER] is not a regular file, the preparer returns, and
    leaves [OUT_FOLDER] as an empty directory; it calls [shutil.rmtree], which
    removes the directory with everything beneath it, if and only if
    [OUT_FOLDER] existed.  After a successful run [OUT_FOLDER] holds exactly
    two entries, the generated pages under the names of their templates,
    whatever it held before. *)
Theorem C6_fresh_out_folder (w : world) :
  (forall c, files w !! OUT_FOLDER <> Some (File c)) ->
  prepare_out_folder w =
    (Returned tt,
     World (<[OUT_FOLDER := Folder ∅]> (files w))
       (trace w ++ prepare_events (bool_decide (is_Some (files w !! OUT_FOLDER))))) /\
  (EvRmtree OUT_FOLDER ∈
     prepare_events (bool_decide (is_Some (files w !! OUT_FOLDER))) <->
   is_Some (files w !! OUT_FOLDER)) /\
  (forall jbr_html span_html,
      files w !! Jbr.template = Some (File jbr_html) ->
      files w !! Span.template = Some (File span_html) ->
      fst (_cli w) = Returned tt /\
      files (snd (_cli w)) =
        <[OUT_FOLDER := Folder (pages jbr_html span_html)]> (files w)) /\
  (fst (_cli w) = Returned tt ->
   exists jbr_html span_html,
     files w !! Jbr.template = Some (File jbr_html) /\
     files w !! Span.template = Some (File span_html) /\
     files (snd (_cli w)) !! OUT_FOLDER =
       Some (Folder (pages jbr_html span_html))) /\
  (forall jbr_html span_html,
      dom (pages jbr_html span_html) = {[ Jbr.template; Span.template ]} /\
      pages jbr_html span_html !! Jbr.template =
        Some (File (Jbr.content jbr_html)) /\
      pages jbr_html span_html !! Span.template =
        Some (File (Span.content span_html))).
Proof.
  intros Hout. split.
  { rewrite prepare_run.
    destruct (files w !! OUT_FOLDER) as [[c|entries]|]; try reflexivity.
    now destruct (Hout c). }
  split.
  { unfold prepare_events. case_bool_decide as Hex.
    - split; [intros _; exact Hex | intros _; right; left].
    - split; [|intros H; contradiction]. intros H.
      repeat (apply elem_of_cons in H as [H|H]; [discriminate H|]).
      now apply elem_of_nil in H. }
  split.
  { intros jbr_html span_html Hjbr Hspan.
    now rewrite (cli_run_success w jbr_html span_html Hout Hjbr Hspan). }
  split.
  { intros Hok. destruct (cli_success_inv w Hok)
      as (_ & jbr_html & span_html & Hjbr & Hspan).
    exists jbr_html, span_html. split; [exact Hjbr|]. split; [exact Hspan|].
    rewrite (cli_run_success w jbr_html span_html Hout Hjbr Hspan).
    cbn [snd files]. apply lookup_insert_eq. }
  intros jbr_html span_html. split; [apply pages_dom|]. unfold pages.
  split.
  - rewrite lookup_insert_ne by discriminate. apply lookup_insert_eq.
  - apply lookup_insert_eq.
Qed.

Lemma C6_witness :
  (forall c, files sample_world !! OUT_FOLDER <> Some (File c)) /\
  fst (_cli sample_world) = Returned tt /\
  files (snd (_cli sample_world)) !! OUT_FOLDER =
    Some (Folder (pages sample_template (txt "<p>@BUILD@</p>@TABLE@"))).
Proof.
  assert (Hout : forall c, files sample_world !! OUT_FOLDER <> Some (File c)).
  { intros c. vm_compute. discriminate. }
  split; [exact Hout|].
  destruct (C6_fresh_out_folder sample_world Hout) as (_ & _ & Hrun & _).
  destruct (Hrun sample_template (txt "<p>@BUILD@</p>@TABLE@") eq_refl eq_refl)
    as [Hok Hfiles].
  split; [exact Hok|]. rewrite Hfiles. apply lookup_insert_eq.
Defined.

(** C7.  If the template of the JBR page is absent, the run raises; no
    output file is opened or written, whatever [OUT_FOLDER] there is stays
    empty, and the SPAN generator is not started (its template is not even
    read).  If the template of the SPAN page is absent, the run raises and
    the output file of the SPAN page is neither opened nor written, so
    [OUT_FOLDER] has no entry for that page. *)
Theorem C7_missing_template (w : world) :
  (files w !! Jbr.template = None ->
   exists e fs evs,
     _cli w = (Raised e, World fs (trace w ++ evs)) /\
     (forall dir name, (EvOpenWrite dir name ∉ evs) /\ (EvWrite dir name ∉ evs)) /\
     (EvRead Span.template ∉ evs) /\
     (forall entries, fs !! OUT_FOLDER = Some (Folder entries) -> entries = ∅)) /\
  (files w !! Span.template = None ->
   exists e fs evs,
     _cli w = (Raised e, World fs (trace w ++ evs)) /\
     (EvOpenWrite OUT_FOLDER Span.template ∉ evs) /\
     (EvWrite OUT_FOLDER Span.template ∉ evs) /\
     (forall entries,
         fs !! OUT_FOLDER = Some (Folder entries) ->
         entries !! Span.template = None)).
Proof.
  assert (Hpages : Span.template <> Jbr.template) by discriminate.
  split; intros Hmissing; rewrite cli_run, Hmissing.
  - destruct (files w !! OUT_FOLDER) as [[c|old]|] eqn:Hout;
      (eexists _, _, _; split; [reflexivity|]);
      (split; [intros dir name; split; absent_event|]);
      (split; [absent_event|]); intros es E;
      rewrite ?Hout, ?lookup_insert_eq in E; try discriminate E;
      now apply folder_inv in E.
  - destruct (files w !! OUT_FOLDER) as [[c|old]|] eqn:Hout;
      destruct (files w !! Jbr.template) as [[jbr_html|?]|];
      (eexists _, _, _; split; [reflexivity|]);
      (split; [absent_event|]); (split; [absent_event|]); intros es E;
      rewrite ?Hout, ?lookup_insert_eq in E; try discriminate E;
      apply folder_inv in E as <-;
      rewrite ?lookup_insert_ne by exact (not_eq_sym Hpages);
      apply lookup_empty.
Qed.

Lemma C7_witness :
  files sample_world_no_jbr !! Jbr.template = None /\
  files sample_world_no_span !! Span.template = None /\
  (exists e, fst (_cli sample_world_no_jbr) = Raised e) /\
  (exists e, fst (_cli sample_world_no_span) = Raised e).
Proof.
  assert (H1 : files sample_world_no_jbr !! Jbr.template = None) by reflexivity.
  assert (H2 : files sample_world_no_span !! Span.template = None)
    by reflexivity.
  split; [exact H1|]. split; [exact H2|]. split.
  - destruct (proj1 (C7_missing_template sample_world_no_jbr) H1)
      as (e & fs & evs & Hrun & _).
    exists e. now rewrite Hrun.
  - destruct (proj2 (C7_missing_template sample_world_no_span) H2)
      as (e & fs & evs & Hrun & _).
    exists e. now rewrite Hrun.
Defined.

(** C8.  A successful run can be repeated: the second run succeeds as well
    and leaves the same files, byte for byte.  The generated pages depend on
    nothing but the text of the two templates (and the constants of the
    script): any two successful runs on directories with the same templates
    leave the same [OUT_FOLDER], whatever else the directories hold, and each
    page is a fixed function of its template text. *)
Theorem C8_deterministic (w : world) :
  fst (_cli w) = Returned tt ->
  (fst (_cli (snd (_cli w))) = Returned tt /\
   files (snd (_cli (snd (_cli w)))) = files (snd (_cli w))) /\
  (forall w',
      files w' !! Jbr.template = files w !! Jbr.template ->
      files w' !! Span.template = files w !! Span.template ->
      fst (_cli w') = Returned tt ->
      files (snd (_cli w')) !! OUT_FOLDER = files (snd (_cli w)) !! OUT_FOLDER) /\
  (exists jbr_html span_html,
      files w !! Jbr.template = Some (File jbr_html) /\
      files w !! Span.template = Some (File span_html) /\
      files (snd (_cli w)) !! OUT_FOLDER =
        Some (Folder
                (<[Span.template := File (Span.content span_html)]>
                   (<[Jbr.template := File (Jbr.content jbr_html)]> ∅)))).
Proof.
  intros Hok.
  destruct (cli_success_inv w Hok) as (Hout & jbr_html & span_html & Hjbr & Hspan).
  pose proof (cli_run_success w jbr_html span_html Hout Hjbr Hspan) as Hrun.
  split; [|split].
  - rewrite Hrun. cbn [snd].
    rewrite (cli_run_success _ jbr_html span_html); cbn [files fst snd].
    + split; [reflexivity | apply insert_insert_eq].
    + intros c. rewrite lookup_insert_eq. discriminate.
    + now rewrite lookup_insert_ne by discriminate.
    + now rewrite lookup_insert_ne by discriminate.
  - intros w' Hjbr' Hspan' Hok'.
    destruct (cli_success_inv w' Hok') as (Hout' & _).
    rewrite Hjbr in Hjbr'. rewrite Hspan in Hspan'.
    rewrite (cli_run_success w' jbr_html span_html Hout' Hjbr' Hspan'), Hrun.
    cbn [files snd]. now rewrite !lookup_insert_eq.
  - exists jbr_html, span_html. split; [exact Hjbr|]. split; [exact Hspan|].
    rewrite Hrun. cbn [files snd]. apply lookup_insert_eq.
Qed.

Lemma C8_witness :
  fst (_cli sample_world) = Returned tt /\
  files (snd (_cli (snd (_cli sample_world)))) =
    files (snd (_cli sample_world)).
Proof.
  assert (Hok : fst (_cli sample_world) = Returned tt) by reflexivity.
  split; [exact Hok|].
  exact (proj2 (proj1 (C8_deterministic sample_world Hok))).
Defined.

(** C9, as the specification words it, fails: the progress lines are not
    printed after the two generators.  In the run on [sample_world] the
    fourth event is the first [print], where the order of the specification
    has the JBR generator reading its template. *)
Lemma C9_counterexample :
  fst (_cli sample_world) = Returned tt /\
  trace (snd (_cli sample_world)) !! 3 =
    Some (EvPrint "Creating JetBrains Research JBR page") /\
  (trace sample_world ++ spec_order_events true) !! 3 =
    Some (EvRead Jbr.template) /\
  trace (snd (_cli sample_world)) <>
    trace sample_world ++
    spec_order_events (bool_decide (is_Some (files sample_world !! OUT_FOLDER))).
Proof.
  split; [reflexivity|]. split; [reflexivity|]. split; [reflexivity|].
  intros H. apply (f_equal (fun tr => tr !! 3)) in H.
  vm_compute in H. discriminate H.
Qed.

(** C9, amended.  The entry point performs, in this order and nothing else:
    prepare the output directory; print the JBR progress line; run the JBR
    generator; print the SPAN progress line; run the SPAN generator; print
    [Done].  A run that raises stops there: its events are an initial part of
    this sequence.  A run that returns has performed the whole sequence and
    has printed exactly the three lines. *)
Theorem C9_entry_point_order (w : world) :
  (exists evs,
      trace (snd (_cli w)) = trace w ++ evs /\
      evs `prefix_of` cli_events (bool_decide (is_Some (files w !! OUT_FOLDER)))) /\
  (fst (_cli w) = Returned tt ->
   trace (snd (_cli w)) =
     trace w ++ cli_events (bool_decide (is_Some (files w !! OUT_FOLDER))) /\
   stdout (snd (_cli w)) =
     stdout w ++ ["Creating JetBrains Research JBR page";
                  "Creating JetBrains Research SPAN page";
                  "Done"]%string) /\
  (forall existed,
      cli_events existed =
      EvExists OUT_FOLDER ::
      (if existed then [EvRmtree OUT_FOLDER] else []) ++
      [EvMkdir OUT_FOLDER;
       EvPrint "Creating JetBrains Research JBR page";
       EvRead Jbr.template;
       EvOpenWrite OUT_FOLDER Jbr.template;
       EvWrite OUT_FOLDER Jbr.template;
       EvPrint "Creating JetBrains Research SPAN page";
       EvRead Span.template;
       EvOpenWrite OUT_FOLDER Span.template;
       EvWrite OUT_FOLDER Span.template;
       EvPrint "Done"]).
Proof.
  split; [|split].
  - rewrite cli_run.
    destruct (files w !! OUT_FOLDER) as [[c|old]|];
      destruct (files w !! Jbr.template) as [[jbr_html|?]|];
      destruct (files w !! Span.template) as [[span_html|?]|];
      cbn [snd trace]; (eexists; split; [reflexivity|]);
      rewrite ?bool_decide_eq_true_2 by eauto;
      rewrite ?bool_decide_eq_false_2 by (intros [? ?]; discriminate);
      unfold cli_events; cbn [prepare_events jbr_events span_events app];
      repeat apply prefix_cons; apply prefix_nil.
  - intros Hok.
    destruct (cli_success_inv w Hok) as (Hout & jbr_html & span_html & Hjbr & Hspan).
    rewrite (cli_run_success w jbr_html span_html Hout Hjbr Hspan).
    cbn [snd trace]. split; [reflexivity|].
    unfold stdout. cbn [trace]. rewrite omap_app. f_equal.
    now destruct (bool_decide (is_Some (files w !! OUT_FOLDER))).
  - intros [|]; reflexivity.
Qed.

Lemma C9_witness :
  fst (_cli sample_world) = Returned tt /\
  stdout (snd (_cli sample_world)) =
    ["Creating JetBrains Research JBR page";
     "Creating JetBrains Research SPAN page";
     "Done"]%string.
Proof.
  assert (Hok : fst (_cli sample_world) = Returned tt) by reflexivity.
  split; [exact Hok|].
  exact (proj2 (proj1 (proj2 (C9_entry_point_order sample_world)) Hok)).
Defined.

(** C10.  A template text in which none of [@TABLE@], [@BUILD@], [@DATE@],
    [@FILENAME-win@], [@FILENAME-mac@], [@FILENAME-linux@] occurs is left
    unchanged by the substitutions of either generator, and each generator
    writes that very text to its output file. *)
Theorem C10_identity_without_placeholders (t : text) :
  Str.contains TABLE t = false ->
  Str.contains BUILD t = false ->
  Str.contains DATE t = false ->
  Str.contains (txt "@FILENAME-win@") t = false ->
  Str.contains (txt "@FILENAME-mac@") t = false ->
  Str.contains (txt "@FILENAME-linux@") t = false ->
  Jbr.content t = t /\
  Span.content t = t /\
  (forall w entries,
      files w !! OUT_FOLDER = Some (Folder entries) ->
      entries !! Jbr.template = None ->
      files w !! Jbr.template = Some (File t) ->
      generate_jbr_data w =
        (Returned tt,
         World (<[OUT_FOLDER := Folder (<[Jbr.template := File t]> entries)]>
                  (files w))
           (trace w ++ jbr_events))) /\
  (forall w entries,
      files w !! OUT_FOLDER = Some (Folder entries) ->
      entries !! Span.template = None ->
      files w !! Span.template = Some (File t) ->
      generate_span_data w =
        (Returned tt,
         World (<[OUT_FOLDER := Folder (<[Span.template := File t]> entries)]>
                  (files w))
           (trace w ++ span_events))).
Proof.
  intros Htable Hbuild Hdate Hwin Hmac Hlinux.
  assert (Hjbr : Jbr.content t = t).
  { rewrite jbr_content_substitutions. apply apply_substitutions_id.
    repeat (apply Forall_cons; split; [split; [discriminate | assumption]|]).
    apply Forall_nil_2. }
  assert (Hspan : Span.content t = t).
  { rewrite span_content_substitutions. apply apply_substitutions_id.
    repeat (apply Forall_cons; split; [split; [discriminate | assumption]|]).
    apply Forall_nil_2. }
  split; [exact Hjbr|]. split; [exact Hspan|]. split.
  - intros w entries Hout Hfresh Htpl.
    change generate_jbr_data with (page_generator Jbr.template Jbr.content).
    rewrite (page_generator_run _ _ w entries Hout) by discriminate.
    now rewrite Htpl, Hfresh, Hjbr.
  - intros w entries Hout Hfresh Htpl.
    change generate_span_data with (page_generator Span.template Span.content).
    rewrite (page_generator_run _ _ w entries Hout) by discriminate.
    now rewrite Htpl, Hfresh, Hspan.
Qed.

Lemma C10_witness :
  Str.contains TABLE (txt "<p>mail@example.org</p>") = false /\
  Jbr.content (txt "<p>mail@example.org</p>") = txt "<p>mail@example.org</p>" /\
  Span.content (txt "<p>mail@example.org</p>") = txt "<p>mail@example.org</p>".
Proof.
  split; [reflexivity|].
  destruct (C10_identity_without_placeholders (txt "<p>mail@example.org</p>")
              eq_refl eq_refl eq_refl eq_refl eq_refl eq_refl)
    as (Hjbr & Hspan & _).
  split; [exact Hjbr | exact Hspan].
Defined.

End Entry_point.

(** * Further properties of the generators *)

Section Rendering.

Import Str.

(** X1.  Whatever the template, the text the JBR generator writes contains
    none of the per-platform placeholders [@FILENAME-win@], [@FILENAME-mac@],
    [@FILENAME-linux@]. *)
Theorem X1_jbr_filename_placeholders_removed (t : text) :
  contains (txt "@FILENAME-win@") (Jbr.content t) = false /\
  contains (txt "@FILENAME-mac@") (Jbr.content t) = false /\
  contains (txt "@FILENAME-linux@") (Jbr.content t) = false.
Proof.
  pose proof (jbr_content_absent t) as H.
  do 3 apply Forall_cons in H as [_ H].
  apply Forall_cons in H as [[_ Hwin] H].
  apply Forall_cons in H as [[_ Hmac] H].
  apply Forall_cons in H as [[_ Hlinux] _].
  auto.
Qed.

(** X2.  A generated page is a fixed point of its generator: used as a
    template again, it is written back unchanged. *)
Theorem X2_rendering_idempotent (t : text) :
  Jbr.content (Jbr.content t) = Jbr.content t /\
  Span.content (Span.content t) = Span.content t.
Proof.
  split.
  - rewrite (jbr_content_substitutions (Jbr.content t)).
    apply apply_substitutions_id, jbr_content_absent.
  - rewrite (span_content_substitutions (Span.content t)).
    apply apply_substitutions_id, span_content_absent.
Qed.

(** X3.  The SPAN generator substitutes no per-platform placeholder: a
    template without [@TABLE@], [@BUILD@] and [@DATE@] is written unchanged
    even where it contains [@FILENAME-win@] and the like. *)
Theorem X3_span_ignores_filename_placeholders (t : text) :
  contains TABLE t = false ->
  contains BUILD t = false ->
  contains DATE t = false ->
  Span.content t = t.
Proof.
  intros Htable Hbuild Hdate.
  rewrite span_content_substitutions. apply apply_substitutions_id.
  repeat (apply Forall_cons; split; [split; [discriminate | assumption]|]).
  apply Forall_nil_2.
Qed.

Lemma X3_witness :
  contains TABLE (txt "<a>@FILENAME-win@</a>") = false /\
  Span.content (txt "<a>@FILENAME-win@</a>") = txt "<a>@FILENAME-win@</a>".
Proof.
  split; [reflexivity|].
  exact (X3_span_ignores_filename_placeholders (txt "<a>@FILENAME-win@</a>")
           eq_refl eq_refl eq_refl).
Defined.

End Rendering.

Section Runs.

(** X4.  No run, whether it returns or raises, creates, changes or removes
    an entry of the script's directory other than [OUT_FOLDER]; in
    particular the templates are never modified. *)
Theorem X4_only_out_folder_changes (w : world) (name : string) :
  name <> OUT_FOLDER ->
  files (snd (_cli w)) !! name = files w !! name.
Proof.
  intros Hname. rewrite cli_run.
  destruct (files w !! OUT_FOLDER) as [[c|old]|];
    destruct (files w !! Jbr.template) as [[jbr_html|?]|];
    destruct (files w !! Span.template) as [[span_html|?]|];
    cbn [snd files]; try reflexivity;
    now rewrite lookup_insert_ne by congruence.
Qed.

Lemma X4_witness :
  Jbr.template <> OUT_FOLDER /\
  files (snd (_cli sample_world)) !! Jbr.template =
    Some (File sample_template).
Proof.
  assert (H : Jbr.template <> OUT_FOLDER) by discriminate.
  split; [exact H|].
  now rewrite (X4_only_out_folder_changes sample_world Jbr.template H).
Defined.

(** X7.  When [OUT_FOLDER] is a regular file the run raises
    [NotADirectoryError] at [shutil.rmtree]: no entry of the directory is
    changed, the file named [out] included, and nothing is printed. *)
Theorem X7_out_is_a_file (w : world) (c : text) :
  files w !! OUT_FOLDER = Some (File c) ->
  fst (_cli w) = Raised NotADirectoryError /\
  files (snd (_cli w)) = files w /\
  stdout (snd (_cli w)) = stdout w.
Proof.
  intros Hout. rewrite cli_run, Hout. cbn [fst snd files trace].
  split; [reflexivity|]. split; [reflexivity|].
  unfold stdout. cbn [trace]. rewrite omap_app. apply app_nil_r.
Qed.

Lemma X7_witness :
  files sample_world_out_is_file !! OUT_FOLDER =
    Some (File (txt "not a directory")) /\
  fst (_cli sample_world_out_is_file) = Raised NotADirectoryError /\
  files (snd (_cli sample_world_out_is_file)) = files sample_world_out_is_file.
Proof.
  assert (H : files sample_world_out_is_file !! OUT_FOLDER =
              Some (File (txt "not a directory"))) by reflexivity.
  split; [exact H|].
  destruct (X7_out_is_a_file sample_world_out_is_file _ H) as (H1 & H2 & _).
  split; [exact H1 | exact H2].
Defined.

(** X8.  When the JBR template is absent (and [OUT_FOLDER] is not a regular
    file) the run raises [FileNotFoundError] after the output directory has
    been prepared: the previous content of [OUT_FOLDER] is lost, the
    directory is left empty, and only the first progress line has been
    printed. *)
Theorem X8_jbr_template_absent (w : world) :
  (forall c, files w !! OUT_FOLDER <> Some (File c)) ->
  files w !! Jbr.template = None ->
  fst (_cli w) = Raised FileNotFoundError /\
  files (snd (_cli w)) = <[OUT_FOLDER := Folder ∅]> (files w) /\
  stdout (snd (_cli w)) =
    stdout w ++ ["Creating JetBrains Research JBR page"]%string.
Proof.
  intros Hout Hjbr. rewrite cli_run, Hjbr.
  destruct (files w !! OUT_FOLDER) as [[c|old]|] eqn:E;
    [now destruct (Hout c) | |];
    cbn [fst snd files trace]; (split; [reflexivity|]);
    (split; [reflexivity|]); unfold stdout; cbn [trace];
    rewrite omap_app; f_equal.
Qed.

Lemma X8_witness :
  (forall c, files sample_world_no_jbr !! OUT_FOLDER <> Some (File c)) /\
  files sample_world_no_jbr !! Jbr.template = None /\
  files (snd (_cli sample_world_no_jbr)) !! OUT_FOLDER = Some (Folder ∅).
Proof.
  assert (H1 : forall c,
             files sample_world_no_jbr !! OUT_FOLDER <> Some (File c)).
  { intros c. vm_compute. discriminate. }
  assert (H2 : files sample_world_no_jbr !! Jbr.template = None)
    by reflexivity.
  split; [exact H1|]. split; [exact H2|].
  destruct (X8_jbr_template_absent sample_world_no_jbr H1 H2) as (_ & Hfs & _).
  rewrite Hfs. apply lookup_insert_eq.
Defined.



End Runs.

Section Generators.

(** X10.  A generator does not create [OUT_FOLDER]: run without it, either
    generator raises and leaves every file as it was; with its template in
    place the error is the [FileNotFoundError] of opening the output file. *)
Theorem X10_generators_need_out_folder (w : world) :
  files w !! OUT_FOLDER = None ->
  ((exists e, fst (generate_jbr_data w) = Raised e) /\
   files (snd (generate_jbr_data w)) = files w /\
   (forall t, files w !! Jbr.template = Some (File t) ->
              fst (generate_jbr_data w) = Raised FileNotFoundError)) /\
  ((exists e, fst (generate_span_data w) = Raised e) /\
   files (snd (generate_span_data w)) = files w /\
   (forall t, files w !! Span.template = Some (File t) ->
              fst (generate_span_data w) = Raised FileNotFoundError)).
Proof.
  intros Hout. split.
  - change generate_jbr_data with (page_generator Jbr.template Jbr.content).
    rewrite (page_generator_no_folder _ _ w Hout).
    destruct (files w !! Jbr.template) as [[t|?]|]; cbn [fst snd files];
      (split; [eauto|]); (split; [reflexivity|]); intros t' [=]; reflexivity.
  - change generate_span_data with (page_generator Span.template Span.content).
    rewrite (page_generator_no_folder _ _ w Hout).
    destruct (files w !! Span.template) as [[t|?]|]; cbn [fst snd files];
      (split; [eauto|]); (split; [reflexivity|]); intros t' [=]; reflexivity.
Qed.

Lemma X10_witness :
  files sample_world_no_out !! OUT_FOLDER = None /\
  fst (generate_jbr_data sample_world_no_out) = Raised FileNotFoundError /\
  files (snd (generate_jbr_data sample_world_no_out)) =
    files sample_world_no_out.
Proof.
  assert (H : files sample_world_no_out !! OUT_FOLDER = None) by reflexivity.
  split; [exact H|].
  destruct (X10_generators_need_out_folder sample_world_no_out H)
    as ((_ & Hfs & Hraise) & _).
  split; [exact (Hraise sample_template eq_refl) | exact Hfs].
Defined.

(** X11.  The two generators are independent.  From a directory in which
    [OUT_FOLDER] exists, both templates are regular files and [OUT_FOLDER]
    holds no directory under the name of either page, running one generator
    after the other returns in either order and leaves the same files. *)
Theorem X11_generators_commute (w : world) (entries : gmap string node)
    (jbr_html span_html : text) :
  files w !! OUT_FOLDER = Some (Folder entries) ->
  (forall m, entries !! Jbr.template <> Some (Folder m)) ->
  (forall m, entries !! Span.template <> Some (Folder m)) ->
  files w !! Jbr.template = Some (File jbr_html) ->
  files w !! Span.template = Some (File span_html) ->
  fst ((generate_jbr_data ;; generate_span_data) w) = Returned tt /\
  fst ((generate_span_data ;; generate_jbr_data) w) = Returned tt /\
  files (snd ((generate_jbr_data ;; generate_span_data) w)) =
  files (snd ((generate_span_data ;; generate_jbr_data) w)).
Proof.
  intros Hout Hfj Hfs Hjbr Hspan.
  assert (Hne : Jbr.template <> Span.template) by discriminate.
  change generate_jbr_data with (page_generator Jbr.template Jbr.content).
  change generate_span_data with (page_generator Span.template Span.content).
  rewrite !bind_run.
  rewrite (page_generator_ok Jbr.template _ w entries jbr_html)
    by (assumption || discriminate).
  rewrite (page_generator_ok Span.template _ w entries span_html)
    by (assumption || discriminate).
  erewrite (page_generator_ok Span.template _ _ _ span_html);
    [ | cbn [files]; apply lookup_insert_eq | discriminate
      | intros m; rewrite lookup_insert_ne by exact Hne; apply Hfs
      | cbn [files]; rewrite lookup_insert_ne by discriminate; exact Hspan ].
  erewrite (page_generator_ok Jbr.template _ _ _ jbr_html);
    [ | cbn [files]; apply lookup_insert_eq | discriminate
      | intros m; rewrite lookup_insert_ne by exact (not_eq_sym Hne); apply Hfj
      | cbn [files]; rewrite lookup_insert_ne by discriminate; exact Hjbr ].
  cbn [fst snd files]. split; [reflexivity|]. split; [reflexivity|].
  rewrite !insert_insert_eq. f_equal. f_equal.
  apply insert_insert_ne. exact (not_eq_sym Hne).
Qed.

(** X12.  A generator opens its output with mode [w]: run a second time it
    overwrites its page with the same text, so that running it twice leaves
    the same files as running it once. *)
Theorem X12_generator_twice (w : world) (entries : gmap string node)
    (jbr_html span_html : text) :
  files w !! OUT_FOLDER = Some (Folder entries) ->
  (forall m, entries !! Jbr.template <> Some (Folder m)) ->
  (forall m, entries !! Span.template <> Some (Folder m)) ->
  files w !! Jbr.template = Some (File jbr_html) ->
  files w !! Span.template = Some (File span_html) ->
  (fst ((generate_jbr_data ;; generate_jbr_data) w) = Returned tt /\
   files (snd ((generate_jbr_data ;; generate_jbr_data) w)) =
   files (snd (generate_jbr_data w))) /\
  (fst ((generate_span_data ;; generate_span_data) w) = Returned tt /\
   files (snd ((generate_span_data ;; generate_span_data) w)) =
   files (snd (generate_span_data w))).
Proof.
  intros Hout Hfj Hfs Hjbr Hspan.
  change generate_jbr_data with (page_generator Jbr.template Jbr.content).
  change generate_span_data with (page_generator Span.template Span.content).
  rewrite !bind_run.
  rewrite (page_generator_ok Jbr.template _ w entries jbr_html)
    by (assumption || discriminate).
  rewrite (page_generator_ok Span.template _ w entries span_html)
    by (assumption || discriminate).
  split.
  - erewrite (page_generator_ok Jbr.template _ _ _ jbr_html);
      [ | cbn [files]; apply lookup_insert_eq | discriminate
        | intros m; rewrite lookup_insert_eq; discriminate
        | cbn [files]; rewrite lookup_insert_ne by discriminate; exact Hjbr ].
    cbn [fst snd files]. split; [reflexivity|].
    now rewrite !insert_insert_eq.
  - erewrite (page_generator_ok Span.template _ _ _ span_html);
      [ | cbn [files]; apply lookup_insert_eq | discriminate
        | intros m; rewrite lookup_insert_eq; discriminate
        | cbn [files]; rewrite lookup_insert_ne by discriminate; exact Hspan ].
    cbn [fst snd files]. split; [reflexivity|].
    now rewrite !insert_insert_eq.
Qed.

Lemma X11_witness :
  files sample_world !! OUT_FOLDER = Some (Folder sample_entries) /\
  files (snd ((generate_jbr_data ;; generate_span_data) sample_world)) =
  files (snd ((generate_span_data ;; generate_jbr_data) sample_world)).
Proof.
  assert (Hout : files sample_world !! OUT_FOLDER = Some (Folder sample_entries))
    by reflexivity.
  split; [exact Hout|].
  refine (proj2 (proj2 (X11_generators_commute sample_world sample_entries
                          sample_template (txt "<p>@BUILD@</p>@TABLE@")
                          Hout _ _ eq_refl eq_refl)));
    intros m; vm_compute; discriminate.
Defined.

Lemma X12_witness :
  files sample_world !! OUT_FOLDER = Some (Folder sample_entries) /\
  files (snd ((generate_jbr_data ;; generate_jbr_data) sample_world)) =
  files (snd (generate_jbr_data sample_world)).
Proof.
  assert (Hout : files sample_world !! OUT_FOLDER = Some (Folder sample_entries))
    by reflexivity.
  split; [exact Hout|].
  refine (proj2 (proj1 (X12_generator_twice sample_world sample_entries
                          sample_template (txt "<p>@BUILD@</p>@TABLE@")
                          Hout _ _ eq_refl eq_refl)));
    intros m; vm_compute; discriminate.
Defined.

End Generators.

Section Filename_loop.

Import Str Jbr.

(** X13.  The [seen_file_names] guard does not decide which value wins: as
    long as no value [<build><suffix>] can bring a filename placeholder back
    (each is free of [@] and has a character that the placeholder lacks), the
    loop gives the same text as the loop without the guard, in which every
    descriptor replaces; a later descriptor of the same folder finds nothing
    left to replace.  This holds for the descriptors and the build of the
    script. *)
Theorem X13_guard_is_redundant (ds : list DistrDescriptor)
    (build content : text) :
  (forall d d', d ∈ ds -> d' ∈ ds ->
                inert at_sign (filename_key d) (build ++ suffix d') = true) ->
  snd (filename_loop ds build content) =
  filename_loop_unguarded ds build content.
Proof.
  intros Hinert. unfold filename_loop.
  apply (filename_loop_unguarded_from build ds Hinert).
  - now apply Forall_forall.
  - intros k Hk. now apply not_elem_of_empty in Hk.
Qed.

Lemma X13_witness :
  (forall d d', d ∈ descrs -> d' ∈ descrs ->
                inert at_sign (filename_key d) (JBR_BUILD ++ suffix d') = true) /\
  snd (filename_loop descrs JBR_BUILD sample_template) =
  filename_loop_unguarded descrs JBR_BUILD sample_template.
Proof.
  assert (H : forall d d', d ∈ descrs -> d' ∈ descrs ->
                inert at_sign (filename_key d) (JBR_BUILD ++ suffix d') = true).
  { intros d d' Hd Hd'.
    repeat (apply elem_of_cons in Hd as [->|Hd]);
      try (now apply elem_of_nil in Hd);
      repeat (apply elem_of_cons in Hd' as [->|Hd']);
      try (now apply elem_of_nil in Hd'); reflexivity. }
  split; [exact H|].
  exact (X13_guard_is_redundant descrs JBR_BUILD sample_template H).
Defined.

End Filename_loop.

Section Constants.

Import Str.

(** X14.  The SPAN page stays free of [@TABLE@], [@BUILD@] and [@DATE@] for
    every build identifier and release date put into the constants, as long
    as both are free of [@] and each has a character (a digit, say) that
    occurs in none of the three placeholders. *)
Theorem X14_span_any_constants (build date t : text) :
  safe_constant build ->
  safe_constant date ->
  contains TABLE (Span.render build date t) = false /\
  contains BUILD (Span.render build date t) = false /\
  contains DATE (Span.render build date t) = false.
Proof.
  intros [Hb (yb & Hyb & Hyb')] [Hd (yd & Hyd & Hyd')].
  rewrite !not_elem_of_app in Hyb', Hyd'.
  destruct Hyb' as (HbT & HbB & HbD), Hyd' as (HdT & HdB & HdD).
  change (Span.render build date t)
    with (apply_substitutions
            ([(hole (txt "TABLE"), Span.create_tr build);
              (hole (txt "BUILD"), build); (hole (txt "DATE"), date)]) t).
  change TABLE with (hole (txt "TABLE")) in *.
  change BUILD with (hole (txt "BUILD")) in *.
  change DATE with (hole (txt "DATE")) in *.
  assert (Hnl : "010"%char ∈ Span.create_tr build)
    by (apply elem_of_app; left; apply list_elem_of_here).
  pose proof (span_row_free build Hb) as Hrow.
  split; [|split].
  - apply (apply_substitutions_removes_hole _ _ "010"%char []);
      try assumption; try (now apply free_of_spec).
    repeat (apply Forall_cons; split; [split; [discriminate|]; eauto|]).
    apply Forall_nil_2.
  - apply (apply_substitutions_removes_hole _ _ yb [_]);
      try assumption; try (now apply free_of_spec).
    repeat (apply Forall_cons; split; [split; [discriminate|]; eauto|]).
    apply Forall_nil_2.
  - apply (apply_substitutions_removes_hole _ _ yd [_; _]);
      try assumption; try (now apply free_of_spec).
    apply Forall_nil_2.
Qed.

Lemma X14_witness :
  safe_constant SPAN_BUILD /\ safe_constant SPAN_DATE /\
  contains BUILD (Span.render SPAN_BUILD SPAN_DATE sample_template) = false.
Proof.
  assert (Hb : safe_constant SPAN_BUILD).
  { split; [now apply free_of_spec|]. exists "0"%char.
    split; [apply list_elem_of_here | now apply free_of_spec]. }
  assert (Hd : safe_constant SPAN_DATE).
  { split; [now apply free_of_spec|]. exists "M"%char.
    split; [apply list_elem_of_here | now apply free_of_spec]. }
  split; [exact Hb|]. split; [exact Hd|].
  exact (proj1 (proj2 (X14_span_any_constants SPAN_BUILD SPAN_DATE
                         sample_template Hb Hd))).
Defined.

(** X15.  The same holds for the JBR page, filename placeholders included:
    for every build identifier and release date that are free of [@] and
    have a character outside the three placeholders, the page contains none
    of [@TABLE@], [@BUILD@], [@DATE@], [@FILENAME-win@], [@FILENAME-mac@],
    [@FILENAME-linux@]. *)
Theorem X15_jbr_any_constants (build date t : text) :
  safe_constant build ->
  safe_constant date ->
  contains TABLE (Jbr.render Jbr.descrs build date t) = false /\
  contains BUILD (Jbr.render Jbr.descrs build date t) = false /\
  contains DATE (Jbr.render Jbr.descrs build date t) = false /\
  contains (txt "@FILENAME-win@") (Jbr.render Jbr.descrs build date t) = false /\
  contains (txt "@FILENAME-mac@") (Jbr.render Jbr.descrs build date t) = false /\
  contains (txt "@FILENAME-linux@") (Jbr.render Jbr.descrs build date t) = false.
Proof.
  intros [Hb (yb & Hyb & Hyb')] [Hd (yd & Hyd & Hyd')].
  rewrite !not_elem_of_app in Hyb', Hyd'.
  destruct Hyb' as (HbT & HbB & HbD), Hyd' as (HdT & HdB & HdD).
  unfold Jbr.render. rewrite filename_loop_first_wins.
  change (apply_substitutions (filename_substitutions Jbr.descrs build)
            (Jbr.substitute_fixed Jbr.descrs build date t))
    with (apply_substitutions
            ([(hole (txt "TABLE"), Jbr.table Jbr.descrs build);
              (hole (txt "BUILD"), build); (hole (txt "DATE"), date);
              (hole (txt "FILENAME-win"), build ++ txt "_x64.zip");
              (hole (txt "FILENAME-mac"), build ++ txt ".dmg");
              (hole (txt "FILENAME-linux"), build ++ txt ".tar.gz")]) t).
  change TABLE with (hole (txt "TABLE")) in *.
  change BUILD with (hole (txt "BUILD")) in *.
  change DATE with (hole (txt "DATE")) in *.
  change (txt "@FILENAME-win@") with (hole (txt "FILENAME-win")).
  change (txt "@FILENAME-mac@") with (hole (txt "FILENAME-mac")).
  change (txt "@FILENAME-linux@") with (hole (txt "FILENAME-linux")).
  assert (Hnl : "010"%char ∈ Jbr.table Jbr.descrs build)
    by (apply elem_of_app; left; apply list_elem_of_here).
  pose proof (jbr_table_free build Hb) as Htable.
  assert (Hdot : forall suffix,
             "."%char ∈ suffix -> "."%char ∈ build ++ suffix)
    by (intros; apply elem_of_app; now right).
  assert (Hfree : forall suffix,
             at_sign ∉ suffix -> at_sign ∉ build ++ suffix)
    by (intros; now apply not_elem_of_app).
  assert (Hzip : "."%char ∈ txt "_x64.zip")
    by (apply list_elem_of_In; cbn; tauto).
  assert (Hdmg : "."%char ∈ txt ".dmg") by apply list_elem_of_here.
  assert (Htgz : "."%char ∈ txt ".tar.gz") by apply list_elem_of_here.
  assert (Hvalue : forall name suffix,
             at_sign ∉ suffix -> "."%char ∈ suffix -> "."%char ∉ hole name ->
             (at_sign ∉ build ++ suffix) /\
             exists y, y ∈ build ++ suffix /\ (y ∉ hole name)).
  { intros name sfx H1 H2 H3. split; [now apply Hfree|].
    exists "."%char. split; [now apply Hdot | exact H3]. }
  repeat split.
  - apply (apply_substitutions_removes_hole _ _ "010"%char []);
      try assumption; try (now apply free_of_spec).
    apply Forall_cons; split; [split; [discriminate|]; eauto|].
    apply Forall_cons; split; [split; [discriminate|]; eauto|].
    repeat (apply Forall_cons; split;
            [split; [discriminate|]; apply Hvalue;
             assumption || now apply free_of_spec|]).
    apply Forall_nil_2.
  - apply (apply_substitutions_removes_hole _ _ yb [_]);
      try assumption; try (now apply free_of_spec).
    apply Forall_cons; split; [split; [discriminate|]; eauto|].
    repeat (apply Forall_cons; split;
            [split; [discriminate|]; apply Hvalue;
             assumption || now apply free_of_spec|]).
    apply Forall_nil_2.
  - apply (apply_substitutions_removes_hole _ _ yd [_; _]);
      try assumption; try (now apply free_of_spec).
    repeat (apply Forall_cons; split;
            [split; [discriminate|]; apply Hvalue;
             assumption || now apply free_of_spec|]).
    apply Forall_nil_2.
  - apply (apply_substitutions_removes_hole _ _ "."%char [_; _; _]);
      [ now apply free_of_spec | apply Hfree; now apply free_of_spec
      | apply Hdot; assumption | now apply free_of_spec | ].
    repeat (apply Forall_cons; split;
            [split; [discriminate|]; apply Hvalue;
             assumption || now apply free_of_spec|]).
    apply Forall_nil_2.
  - apply (apply_substitutions_removes_hole _ _ "."%char [_; _; _; _]);
      [ now apply free_of_spec | apply Hfree; now apply free_of_spec
      | apply Hdot; assumption | now apply free_of_spec | ].
    repeat (apply Forall_cons; split;
            [split; [discriminate|]; apply Hvalue;
             assumption || now apply free_of_spec|]).
    apply Forall_nil_2.
  - apply (apply_substitutions_removes_hole _ _ "."%char [_; _; _; _; _]);
      [ now apply free_of_spec | apply Hfree; now apply free_of_spec
      | apply Hdot; assumption | now apply free_of_spec | ].
    apply Forall_nil_2.
Qed.

Lemma X15_witness :
  safe_constant JBR_BUILD /\ safe_constant JBR_DATE /\
  contains (txt "@FILENAME-win@")
    (Jbr.render Jbr.descrs JBR_BUILD JBR_DATE sample_template) = false.
Proof.
  assert (Hb : safe_constant JBR_BUILD).
  { split; [now apply free_of_spec|]. exists "1"%char.
    split; [apply list_elem_of_here | now apply free_of_spec]. }
  assert (Hd : safe_constant JBR_DATE).
  { split; [now apply free_of_spec|]. exists "M"%char.
    split; [apply list_elem_of_here | now apply free_of_spec]. }
  split; [exact Hb|]. split; [exact Hd|].
  destruct (X15_jbr_any_constants JBR_BUILD JBR_DATE sample_template Hb Hd)
    as (_ & _ & _ & Hwin & _).
  exact Hwin.
Defined.

End Constants.

Section Templates_filled.



End Templates_filled.
